(** * Binance futures monitor (order.py): request signing, API client,
      presenter, paginator and refresh loop.

    Python [str] values are modelled by Rocq strings holding their UTF-8
    encoding, so [s.encode('utf-8')] is the list of the string's bytes (a
    str with a lone surrogate has no such encoding and is not represented).
    Python [bytes] are lists of integers in [0, 256).  Python [int] is [Z].
    Floating point, the HTTP and UI libraries and the clock are interfaces
    ([Builtins], [Runtime]) that the program is parameterised by. *)

From Stdlib Require Import ZArith List String Ascii DecimalString Lia Bool.
From stdpp Require Import gmap strings list.

Set Warnings "-register-all".
Local Open Scope string_scope.
Local Open Scope Z_scope.

(** ** hashlib.sha256 (FIPS 180-4), on 32-bit words held in [Z]. *)
Module Sha256.

Definition word := Z.
Definition wmask : Z := 2 ^ 32.
Definition wadd (x y : word) : word := (x + y) mod wmask.
Definition rotr (n : Z) (x : word) : word :=
  Z.lor (Z.shiftr x n) (Z.shiftl x (32 - n) mod wmask).
Definition wnot (x : word) : word := wmask - 1 - x.

Definition ch (x y z : word) : word :=
  Z.lxor (Z.land x y) (Z.land (wnot x) z).
Definition maj (x y z : word) : word :=
  Z.lxor (Z.lxor (Z.land x y) (Z.land x z)) (Z.land y z).
Definition bsig0 (x : word) : word :=
  Z.lxor (Z.lxor (rotr 2 x) (rotr 13 x)) (rotr 22 x).
Definition bsig1 (x : word) : word :=
  Z.lxor (Z.lxor (rotr 6 x) (rotr 11 x)) (rotr 25 x).
Definition ssig0 (x : word) : word :=
  Z.lxor (Z.lxor (rotr 7 x) (rotr 18 x)) (Z.shiftr x 3).
Definition ssig1 (x : word) : word :=
  Z.lxor (Z.lxor (rotr 17 x) (rotr 19 x)) (Z.shiftr x 10).

(** The sixty-four round constants (fractional parts of the cube roots of
    the first sixty-four primes), in decimal. *)
Definition round_constants : list word :=
  [
    1116352408; 1899447441; 3049323471; 3921009573;
    961987163; 1508970993; 2453635748; 2870763221;
    3624381080; 310598401; 607225278; 1426881987;
    1925078388; 2162078206; 2614888103; 3248222580;
    3835390401; 4022224774; 264347078; 604807628;
    770255983; 1249150122; 1555081692; 1996064986;
    2554220882; 2821834349; 2952996808; 3210313671;
    3336571891; 3584528711; 113926993; 338241895;
    666307205; 773529912; 1294757372; 1396182291;
    1695183700; 1986661051; 2177026350; 2456956037;
    2730485921; 2820302411; 3259730800; 3345764771;
    3516065817; 3600352804; 4094571909; 275423344;
    430227734; 506948616; 659060556; 883997877;
    958139571; 1322822218; 1537002063; 1747873779;
    1955562222; 2024104815; 2227730452; 2361852424;
    2428436474; 2756734187; 3204031479; 3329325298 ].

(** The eight working variables / chaining values. *)
Record regs := Regs {
  ra : word; rb : word; rc : word; rd : word;
  re : word; rf : word; rg : word; rh : word }.

Definition initial_regs : regs :=
  Regs 0x6a09e667 0xbb67ae85 0x3c6ef372 0xa54ff53a
       0x510e527f 0x9b05688c 0x1f83d9ab 0x5be0cd19.

(** Big-endian packing of four bytes into a word, and back. *)
Definition word_of_bytes (b3 b2 b1 b0 : Z) : word :=
  Z.lor (Z.lor (Z.shiftl b3 24) (Z.shiftl b2 16)) (Z.lor (Z.shiftl b1 8) b0).
Definition bytes_of_word (w : word) : list Z :=
  [ Z.shiftr w 24 mod 256; Z.shiftr w 16 mod 256; Z.shiftr w 8 mod 256; w mod 256 ].

Fixpoint words_of_bytes (bs : list Z) : list word :=
  match bs with
  | b3 :: b2 :: b1 :: b0 :: rest => word_of_bytes b3 b2 b1 b0 :: words_of_bytes rest
  | _ => []
  end.

(** Padding: a 1 bit, zeros up to 56 mod 64 bytes, then the bit length on
    eight bytes. *)
Definition length_bytes (bits : Z) : list Z :=
  map (fun i => Z.shiftr bits (8 * (7 - Z.of_nat i)) mod 256) (seq 0 8).
Definition pad (msg : list Z) : list Z :=
  let n := Z.of_nat (length msg) in
  let zeros := Z.to_nat ((55 - n) mod 64) in
  msg ++ [128] ++ repeat 0 zeros ++ length_bytes (8 * n).

(** Message schedule: sixteen block words extended to sixty-four. *)
Fixpoint extend (k : nat) (w : list word) : list word :=
  match k with
  | O => w
  | S k' =>
      let t := length w in
      let at_ (d : nat) := nth (t - d) w 0 in
      extend k' (w ++ [wadd (wadd (ssig1 (at_ 2%nat)) (at_ 7%nat))
                            (wadd (ssig0 (at_ 15%nat)) (at_ 16%nat))])
  end.
Definition schedule (block : list Z) : list word :=
  extend 48 (words_of_bytes block).

Definition round (r : regs) (kw : word * word) : regs :=
  let t1 := wadd (wadd (wadd (rh r) (bsig1 (re r))) (ch (re r) (rf r) (rg r)))
                 (wadd (fst kw) (snd kw)) in
  let t2 := wadd (bsig0 (ra r)) (maj (ra r) (rb r) (rc r)) in
  Regs (wadd t1 t2) (ra r) (rb r) (rc r) (wadd (rd r) t1) (re r) (rf r) (rg r).

Definition compress (h : regs) (block : list Z) : regs :=
  let r := fold_left round (combine round_constants (schedule block)) h in
  Regs (wadd (ra h) (ra r)) (wadd (rb h) (rb r)) (wadd (rc h) (rc r))
       (wadd (rd h) (rd r)) (wadd (re h) (re r)) (wadd (rf h) (rf r))
       (wadd (rg h) (rg r)) (wadd (rh h) (rh r)).

(** The padded message is consumed in 64-byte blocks. *)
Fixpoint blocks (fuel : nat) (bs : list Z) : list (list Z) :=
  match fuel, bs with
  | S fuel', _ :: _ => firstn 64 bs :: blocks fuel' (skipn 64 bs)
  | _, _ => []
  end.

Definition regs_bytes (r : regs) : list Z :=
  concat (map bytes_of_word
            [ra r; rb r; rc r; rd r; re r; rf r; rg r; rh r]).

Definition sha256 (msg : list Z) : list Z :=
  let p := pad msg in
  regs_bytes (fold_left compress (blocks (length p) p) initial_regs).

End Sha256.

(** [bytes.hex()] / [hexdigest()]: two lowercase digits per byte. *)
Definition hex_digits : list ascii := list_ascii_of_string "0123456789abcdef".
Definition hex_digit (d : Z) : ascii := nth (Z.to_nat (d mod 16)) hex_digits "0"%char.
Definition hex (bs : list Z) : string :=
  string_of_list_ascii
    (concat (map (fun b => [hex_digit (b / 16); hex_digit b]) bs)).

Definition is_lower_hex (c : ascii) : bool :=
  existsb (Ascii.eqb c) hex_digits.

(** [s.encode('utf-8')] on the UTF-8 representation. *)
Definition encode_utf8 (s : string) : list Z :=
  map (fun c => Z.of_N (N_of_ascii c)) (list_ascii_of_string s).


(** ** hmac.new(key, msg, hashlib.sha256): the HMAC object keeps an inner and
    an outer hash object, each modelled by the bytes fed to it so far. *)
Module Hmac.

Definition block_size : nat := 64.

Record hash_obj := { fed : list Z }.
Definition new_hash : hash_obj := {| fed := [] |}.
Definition update (h : hash_obj) (bs : list Z) : hash_obj := {| fed := fed h ++ bs |}.
Definition digest (h : hash_obj) : list Z := Sha256.sha256 (fed h).

Record hmac_obj := { inner : hash_obj; outer : hash_obj }.

Definition translate (pad_byte : Z) (key : list Z) : list Z :=
  map (Z.lxor pad_byte) key.
Definition ljust (key : list Z) : list Z :=
  key ++ repeat 0 (block_size - length key)%nat.

Definition hmac_new (key msg : list Z) : hmac_obj :=
  let key := if (block_size <? length key)%nat then Sha256.sha256 key else key in
  let key := ljust key in
  {| outer := update new_hash (translate 0x5C key);
     inner := update (update new_hash (translate 0x36 key)) msg |}.

Definition hmac_digest (h : hmac_obj) : list Z :=
  digest (update (outer h) (digest (inner h))).
Definition hexdigest (h : hmac_obj) : string := hex (hmac_digest h).

(** RFC 2104, as the specification words it:
    H((K' xor opad) || H((K' xor ipad) || m)). *)
Definition rfc_key (key : list Z) : list Z :=
  let k := if (64 <? length key)%nat then Sha256.sha256 key else key in
  k ++ repeat 0 (64 - length k)%nat.
Definition hmac_sha256 (key msg : list Z) : list Z :=
  Sha256.sha256 (map (Z.lxor 0x5C) (rfc_key key)
                 ++ Sha256.sha256 (map (Z.lxor 0x36) (rfc_key key) ++ msg)).

End Hmac.

(** ** urllib.parse: quote, quote_plus and the joining done by urlencode. *)
Module Urllib.

Definition always_safe : string :=
  "ABCDEFGHIJKLMNOPQRSTUVWXYZabcdefghijklmnopqrstuvwxyz0123456789_.-~".

Definition mem_char (c : ascii) (s : string) : bool :=
  existsb (Ascii.eqb c) (list_ascii_of_string s).

Definition upper_hex (d : Z) : ascii :=
  nth (Z.to_nat (d mod 16)) (list_ascii_of_string "0123456789ABCDEF") "0"%char.

(** '%{:02X}'.format(b) *)
Definition percent (c : ascii) : list ascii :=
  let b := Z.of_N (N_of_ascii c) in
  [ "%"%char; upper_hex (b / 16); upper_hex b ].

(** quote_from_bytes(bs, safe) *)
Definition quote_from_bytes (bs : list ascii) (safe : string) : list ascii :=
  concat (map (fun c => if mem_char c always_safe || mem_char c safe
                        then [c] else percent c) bs).

(** quote(string, safe): the empty string is returned at once. *)
Definition quote (s safe : string) : string :=
  match s with
  | EmptyString => s
  | _ => string_of_list_ascii (quote_from_bytes (list_ascii_of_string s) safe)
  end.

(** str.replace(' ', '+') *)
Definition replace_space (s : string) : string :=
  string_of_list_ascii
    (map (fun c => if Ascii.eqb c " " then "+"%char else c) (list_ascii_of_string s)).

(** quote_plus(string, safe='') *)
Definition quote_plus (s : string) : string :=
  if negb (mem_char " " s) then quote s ""
  else replace_space (quote s " ").

(** '&'.join(l) *)
Fixpoint join (sep : string) (l : list string) : string :=
  match l with
  | [] => ""
  | [x] => x
  | x :: rest => x ++ sep ++ join sep rest
  end.

(** The specification's wording of one encoded component: every byte is
    kept when unreserved, a space becomes '+', anything else is
    percent-encoded. *)
Definition encode_byte (c : ascii) : list ascii :=
  if mem_char c always_safe then [c]
  else if Ascii.eqb c " " then ["+"%char]
  else percent c.
Definition encode_component (s : string) : string :=
  string_of_list_ascii (concat (map encode_byte (list_ascii_of_string s))).

End Urllib.

(** ** Python values and builtins. *)

(** Exceptions raised by the modelled operations; [LibraryError] stands for
    whatever requests, Streamlit, pandas or datetime raise. *)
Inductive exn :=
| KeyError (key : string)
| ValueError
| TypeError
| AttributeError
| OverflowError
| ZeroDivisionError
| LibraryError (what : string).

Inductive result (A : Type) :=
| Ok (a : A)
| Raise (e : exn).
Arguments Ok {A} a.
Arguments Raise {A} e.

Definition result_bind {A B} (r : result A) (k : A -> result B) : result B :=
  match r with
  | Ok a => k a
  | Raise e => Raise e
  end.

(** What the interpreter provides and the program does not define: binary
    floating point, [repr] of a string, [str] of an exception. *)
Class Builtins := {
  float : Type;
  float_of_str : string -> option float;  (* float(s); None is ValueError *)
  float_of_int : Z -> option float;       (* float(n); None is OverflowError *)
  float_gt0 : float -> bool;              (* x > 0 *)
  float_ne0 : float -> bool;              (* x != 0 *)
  float_fixed : nat -> float -> string;   (* format(x, '.<n>f') *)
  float_repr : float -> string;           (* repr(x) *)
  str_repr : string -> string;            (* repr(s) *)
  exn_str : exn -> string;                (* str(e) *)
  float_of_str_empty : float_of_str "" = None   (* float('') is a ValueError *)
}.

(** Values as json.loads produces them (and as the program builds them). *)
Inductive value {B : Builtins} : Type :=
| VNone
| VBool (b : bool)
| VInt (z : Z)
| VFloat (x : float)
| VStr (s : string)
| VList (l : list value)
| VDict (d : list (string * value)).

Definition dict {B : Builtins} : Type := list (string * value).

Section PythonBuiltins.
Context {B : Builtins}.

(** str(n) for an int *)
Definition int_str (z : Z) : string := NilZero.string_of_int (Z.to_int z).

Fixpoint py_repr (v : value) : string :=
  match v with
  | VNone => "None"
  | VBool true => "True"
  | VBool false => "False"
  | VInt z => int_str z
  | VFloat x => float_repr x
  | VStr s => str_repr s
  | VList l => "[" ++ Urllib.join ", " (map py_repr l) ++ "]"
  | VDict d =>
      "{" ++ Urllib.join ", "
               (map (fun kv => match kv with
                               | (k, x) => str_repr k ++ ": " ++ py_repr x
                               end) d) ++ "}"
  end.

(** str(v) *)
Definition py_str (v : value) : string :=
  match v with
  | VStr s => s
  | _ => py_repr v
  end.

(** float(v) *)
Definition py_float (v : value) : result float :=
  match v with
  | VStr s => match float_of_str s with Some x => Ok x | None => Raise ValueError end
  | VInt z => match float_of_int z with Some x => Ok x | None => Raise OverflowError end
  | VBool b => match float_of_int (if b then 1 else 0) with
               | Some x => Ok x | None => Raise OverflowError end
  | VFloat x => Ok x
  | VNone | VList _ | VDict _ => Raise TypeError
  end.

(** v == s for a str s *)
Definition py_eq_str (v : value) (s : string) : bool :=
  match v with
  | VStr t => String.eqb t s
  | _ => false
  end.

(** v in [s1, s2, ...] for a list of str *)
Definition py_in_strs (v : value) (l : list string) : bool :=
  existsb (py_eq_str v) l.

(** Dictionaries keep insertion order; assigning to a present key keeps its
    place. *)
Fixpoint dict_get {V} (d : list (string * V)) (k : string) : option V :=
  match d with
  | [] => None
  | (k', v) :: rest => if String.eqb k' k then Some v else dict_get rest k
  end.
Fixpoint dict_set {V} (d : list (string * V)) (k : string) (v : V) : list (string * V) :=
  match d with
  | [] => [(k, v)]
  | (k', v') :: rest =>
      if String.eqb k' k then (k', v) :: rest else (k', v') :: dict_set rest k v
  end.
Definition dict_update {V} (d e : list (string * V)) : list (string * V) :=
  fold_left (fun acc kv => dict_set acc (fst kv) (snd kv)) e d.

(** obj.get(key, default) *)
Definition py_get (obj : value) (key : string) (default : value) : result value :=
  match obj with
  | VDict d => Ok (match dict_get d key with Some v => v | None => default end)
  | _ => Raise AttributeError
  end.

(** obj[key] for a str key *)
Definition py_getitem (obj : value) (key : string) : result value :=
  match obj with
  | VDict d => match dict_get d key with Some v => Ok v | None => Raise (KeyError key) end
  | _ => Raise TypeError
  end.

(** s1 in s2 for two str *)
Definition is_substring (s1 s2 : string) : bool :=
  match String.index 0 s1 s2 with
  | Some _ => true
  | None => false
  end.

(** key in obj for a str key *)
Definition py_contains (obj : value) (key : string) : result bool :=
  match obj with
  | VDict d => Ok (match dict_get d key with Some _ => true | None => false end)
  | VList l => Ok (existsb (fun v => py_eq_str v key) l)
  | VStr s => Ok (is_substring key s)
  | _ => Raise TypeError
  end.

(** The characters of a str: a character starts at every byte that is not a
    UTF-8 continuation byte (10xxxxxx). *)
Definition is_continuation (c : ascii) : bool :=
  let n := Z.of_N (N_of_ascii c) in (128 <=? n) && (n <? 192).
Fixpoint chars_of (cs : list ascii) (cur : list ascii) : list string :=
  match cs with
  | [] => match cur with [] => [] | _ => [string_of_list_ascii (rev cur)] end
  | c :: rest =>
      if is_continuation c then chars_of rest (c :: cur)
      else match cur with
           | [] => chars_of rest [c]
           | _ => string_of_list_ascii (rev cur) :: chars_of rest [c]
           end
  end.

(** for x in obj *)
Definition py_iter (obj : value) : result (list value) :=
  match obj with
  | VList l => Ok l
  | VDict d => Ok (map (fun kv => VStr (fst kv)) d)
  | VStr s => Ok (map VStr (chars_of (list_ascii_of_string s) []))
  | _ => Raise TypeError
  end.

(** bool(obj) *)
Definition py_truthy_dict (extra : option dict) : bool :=
  match extra with
  | Some (_ :: _) => true
  | _ => false
  end.

(** range(a, b) *)
Definition py_range (a b : Z) : list Z :=
  map (fun i => a + Z.of_nat i) (seq 0 (Z.to_nat (b - a))).

(** l[start:stop], also the row slice df.iloc[start:stop] *)
Definition slice_index (n i : Z) : Z :=
  if i <? 0 then Z.max (i + n) 0 else Z.min i n.
Definition py_slice {A} (l : list A) (start stop : Z) : list A :=
  let n := Z.of_nat (length l) in
  let s := slice_index n start in
  let e := slice_index n stop in
  firstn (Z.to_nat (e - s)) (skipn (Z.to_nat s) l).

End PythonBuiltins.

(** ** The libraries and the outside world. *)

(** A [requests] response: its decoded text and what [.json()] does. *)
Record response {B : Builtins} := {
  resp_text : string;
  resp_json : result value
}.

(** A table is its rows, a row its cells under the column labels. *)
Definition row {B : Builtins} : Type := list (string * value).
Definition frame {B : Builtins} : Type := list row.

(** The Streamlit calls the page makes, in order. *)
Inductive call {B : Builtins} : Type :=
| Markdown (text : string)
| Metric (label text : string)
| Dataframe (df : frame)
| Info (text : string)
| Error (text : string)
| Warning (text : string)
| Selectbox (title : string) (options : list Z) (index : Z) (key : string).

Class Runtime {B : Builtins} := {
  world : Type;
  (* int(time.time() * 1000) *)
  time_ms : world -> Z * world;
  (* requests.get(url, headers=...) *)
  requests_get : string -> list (string * string) -> world -> result response * world;
  (* what st.selectbox(title, options, index=, key=) gives back *)
  selectbox_value : string -> list Z -> Z -> string -> world -> result Z * world;
  (* datetime.now().strftime('%Y-%m-%d %H:%M:%S') *)
  strftime_now : world -> string;
  (* time.sleep(seconds) *)
  sleep : Z -> world -> world;
  (* datetime.fromtimestamp(t / 1000).strftime('%Y-%m-%d %H:%M:%S') *)
  fromtimestamp_str : value -> result string;
  (* lines 105-116: DataFrame, column selection, renaming, astype *)
  positions_frame : list value -> result frame;
  (* lines 171-174: DataFrame, column selection, to_datetime, renaming *)
  trades_frame : list value -> result frame
}.

Section Program.
Context {B : Builtins} {R : Runtime}.

(** Program state: the world, st.session_state (the page numbers the
    paginator stores, and the value Streamlit keeps for each keyed widget)
    and the calls made into the placeholder so far. *)
Record state := {
  st_world : world;
  session_state : gmap string Z;
  calls : list call
}.

Definition M (A : Type) : Type := state -> result A * state.

Definition ret {A} (a : A) : M A := fun s => (Ok a, s).
Definition bind {A C} (m : M A) (k : A -> M C) : M C :=
  fun s => match m s with
           | (Ok a, s') => k a s'
           | (Raise e, s') => (Raise e, s')
           end.
Definition lift {A} (r : result A) : M A := fun s => (r, s).
Definition emit (c : call) : M unit :=
  fun s => (Ok tt, {| st_world := st_world s;
                      session_state := session_state s;
                      calls := calls s ++ [c] |}).
Definition with_world {A} (f : world -> result A * world) : M A :=
  fun s => let (r, w) := f (st_world s) in
           (r, {| st_world := w;
                  session_state := session_state s;
                  calls := calls s |}).
(** try: body / except Exception as e: handler *)
Definition try_except {A} (body : M A) (handler : exn -> M A) : M A :=
  fun s => match body s with
           | (Ok a, s') => (Ok a, s')
           | (Raise e, s') => handler e s'
           end.

Notation "x <- m ;; k" := (bind m (fun x => k))
  (at level 100, m at next level, right associativity, only parsing).
Notation "m ;;; k" := (bind m (fun _ => k))
  (at level 100, right associativity, only parsing).
Notation "x <~ r ;; k" := (result_bind r (fun x => k))
  (at level 100, r at next level, right associativity, only parsing).

(** *** Signer and API client (lines 10-44) *)

Definition BINANCE_FUTURES_API_URL : string := "https://fapi.binance.com".

Definition get_timestamp : M Z :=
  with_world (fun w => let (t, w') := time_ms w in (Ok t, w')).

(** urllib.parse.urlencode(params) for a dict *)
Definition urlencode (params : dict) : string :=
  Urllib.join "&"
    (map (fun kv => Urllib.quote_plus (fst kv) ++ "=" ++ Urllib.quote_plus (py_str (snd kv)))
         params).

(** The specification's canonical query string: the parameters in the order
    given, each as key=value with both sides percent-encoded, joined by &. *)
Definition canonical_query (params : dict) : string :=
  Urllib.join "&"
    (map (fun kv => Urllib.encode_component (fst kv) ++ "="
                    ++ Urllib.encode_component (py_str (snd kv))) params).

Definition sign_request (params : dict) (secret_key : string) : string :=
  let query_string := urlencode params in
  Hmac.hexdigest (Hmac.hmac_new (encode_utf8 secret_key) (encode_utf8 query_string)).

Definition get_headers (api_key : string) : list (string * string) :=
  [("X-MBX-APIKEY", api_key)].

(** Lines 23-26: the parameters of a request made at time [ts]. *)
Definition signed_get_params (ts : Z) (secret_key : string) (extra_params : option dict) : dict :=
  let params := [("timestamp", VInt ts)] in
  let params :=
    if py_truthy_dict extra_params
    then dict_update params (match extra_params with Some e => e | None => [] end)
    else params in
  dict_set params "signature" (VStr (sign_request params secret_key)).

(** Line 27 *)
Definition signed_get_url (endpoint : string) (params : dict) : string :=
  BINANCE_FUTURES_API_URL ++ endpoint ++ "?" ++ urlencode params.

(** Lines 29-32 *)
Definition parse_response (resp : response) : value :=
  match resp_json resp with
  | Ok v => v
  | Raise _ => VDict [("msg", VStr "无法解析响应"); ("raw", VStr (resp_text resp))]
  end.

Definition signed_get (endpoint api_key secret_key : string) (extra_params : option dict) : M value :=
  ts <- get_timestamp ;;
  let params := signed_get_params ts secret_key extra_params in
  let url := signed_get_url endpoint params in
  resp <- with_world (requests_get url (get_headers api_key)) ;;
  ret (parse_response resp).

Definition get_account_info (api_key secret_key : string) : M value :=
  signed_get "/fapi/v2/account" api_key secret_key None.
Definition get_positions (api_key secret_key : string) : M value :=
  signed_get "/fapi/v2/positionRisk" api_key secret_key None.
Definition get_open_orders (api_key secret_key : string) : M value :=
  signed_get "/fapi/v1/openOrders" api_key secret_key None.
Definition get_position_history (api_key secret_key : string) : M value :=
  signed_get "/fapi/v1/userTrades" api_key secret_key (Some [("limit", VInt 50)]).

(** *** Paginator (lines 46-65) *)

Definition default_page_size : Z := 10.

(** ceil(n / k) for a positive k, as the specification counts pages. *)
Definition ceil_div (n k : Z) : Z := - ((- n) / k).

Definition paginated_table (df : frame) (label : string) (page_size : Z) : M unit :=
  let total := Z.of_nat (length df) in
  if total <=? page_size then emit (Dataframe df)
  else
    pages <- lift (if page_size =? 0 then Raise ZeroDivisionError
                   else Ok ((total - 1) / page_size + 1)) ;;
    let page_key := label ++ "_page" in
    page <- (fun s => (Ok (match session_state s !! page_key with
                           | Some p => p
                           | None => 1
                           end), s)) ;;
    let start := (page - 1) * page_size in
    let stop := start + page_size in
    emit (Dataframe (py_slice df start stop)) ;;;
    let title := "页码选择 - " ++ label in
    let options := py_range 1 (pages + 1) in
    let key := label ++ "_selector" in
    emit (Selectbox title options (page - 1) key) ;;;
    new_page <- with_world (selectbox_value title options (page - 1) key) ;;
    (* a widget made with key= has its value kept in st.session_state[key];
       line 65 then stores the page under page_key *)
    (fun s => (Ok tt, {| st_world := st_world s;
                         session_state :=
                           <[page_key := new_page]> (<[key := new_page]> (session_state s));
                         calls := calls s |})).

(** *** Presenter (lines 102-177) *)

(** Line 103: [p for p in positions if float(p['positionAmt']) != 0] *)
Fixpoint active_positions (positions : list value) : result (list value) :=
  match positions with
  | [] => Ok []
  | p :: rest =>
      amt <~ py_getitem p "positionAmt" ;;
      x <~ py_float amt ;;
      kept <~ active_positions rest ;;
      Ok (if float_ne0 x then p :: kept else kept)
  end.

(** Lines 129-142 *)
Definition trigger_condition (order_type trigger_price working_type side : value) : string :=
  match py_float trigger_price with
  | Ok tp =>
      if float_gt0 tp then
        let price_cmp :=
          if py_in_strs order_type ["TAKE_PROFIT_MARKET"; "TAKE_PROFIT"]
          then (if py_eq_str side "SELL" then ">=" else "<=")
          else if py_in_strs order_type ["STOP_MARKET"; "STOP"]
          then (if py_eq_str side "SELL" then "<=" else ">=")
          else "-" in
        let trigger_label :=
          if py_eq_str working_type "MARK_PRICE" then "标记价格" else "最新价格" in
        trigger_label ++ " " ++ price_cmp ++ " " ++ float_fixed 4 tp
      else "-"
  | Raise _ => "-"
  end.

(** Lines 144-151 *)
Definition type_map : gmap string string :=
  list_to_map
    [ ("STOP_MARKET", "市价止损");
      ("TAKE_PROFIT_MARKET", "市价止盈");
      ("STOP", "限价止损");
      ("TAKE_PROFIT", "限价止盈");
      ("LIMIT", "限价委托");
      ("MARKET", "市价委托") ].

(** Line 158: type_map.get(order_type, order_type); a list or a dict cannot
    be hashed. *)
Definition type_label (order_type : value) : result value :=
  match order_type with
  | VStr code => Ok (match type_map !! code with
                     | Some label => VStr label
                     | None => order_type
                     end)
  | VList _ | VDict _ => Raise TypeError
  | _ => Ok order_type
  end.

(** Lines 125-142: the four fields read from the order, then the condition. *)
Definition order_trigger_condition (order : value) : result string :=
  order_type <~ py_get order "type" (VStr "") ;;
  trigger_price <~ py_get order "triggerPrice" (VStr "") ;;
  working_type <~ py_get order "workingType" (VStr "") ;;
  side <~ py_get order "side" (VStr "") ;;
  Ok (trigger_condition order_type trigger_price working_type side).

(** Lines 125-162: one pass of the loop body. *)
Definition process_order (order : value) : result row :=
  order_type <~ py_get order "type" (VStr "") ;;
  condition <~ order_trigger_condition order ;;
  symbol <~ py_get order "symbol" (VStr "") ;;
  side' <~ py_get order "side" (VStr "") ;;
  qty <~ py_get order "origQty" (VStr "") ;;
  price <~ py_get order "price" (VStr "") ;;
  label <~ type_label order_type ;;
  status <~ py_get order "status" (VStr "") ;;
  time <~ py_get order "time" (VInt 0) ;;
  placed <~ fromtimestamp_str time ;;
  Ok [ ("交易对", symbol); ("方向", side'); ("数量", qty); ("价格", price);
       ("类型", label); ("状态", status); ("触发条件", VStr condition);
       ("下单时间", VStr placed) ].

Fixpoint process_orders (orders : list value) : result frame :=
  match orders with
  | [] => Ok []
  | order :: rest =>
      r <~ process_order order ;;
      rs <~ process_orders rest ;;
      Ok (r :: rs)
  end.

(** *** Refresh loop (lines 77-187) *)

Inductive control := Continue | Break.

(** Lines 83-179, the body of the try block. *)
Definition cycle_body (api_key api_secret : string) : M control :=
  account_info <- get_account_info api_key api_secret ;;
  positions <- get_positions api_key api_secret ;;
  open_orders <- get_open_orders api_key api_secret ;;
  trade_history <- get_position_history api_key api_secret ;;
  present <- lift (py_contains account_info "totalWalletBalance") ;;
  if negb present then
    shown <- lift (py_get account_info "msg" account_info) ;;
    emit (Error ("账户信息错误: " ++ py_str shown)) ;;;
    ret Break
  else
    total_wallet_balance <-
      lift (v <~ py_getitem account_info "totalWalletBalance" ;; py_float v) ;;
    total_unrealized_profit <-
      lift (v <~ py_getitem account_info "totalUnrealizedProfit" ;; py_float v) ;;
    margin_balance <-
      lift (v <~ py_getitem account_info "totalMarginBalance" ;; py_float v) ;;
    emit (Markdown "### 💼 当前账户汇总") ;;;
    emit (Metric "钱包余额" (float_fixed 2 total_wallet_balance ++ " USDT")) ;;;
    emit (Metric "未实现盈亏" (float_fixed 2 total_unrealized_profit ++ " USDT")) ;;;
    emit (Metric "保证金余额" (float_fixed 2 margin_balance ++ " USDT")) ;;;
    emit (Markdown "### 📈 当前持仓") ;;;
    active <- lift (ps <~ py_iter positions ;; active_positions ps) ;;
    match active with
    | _ :: _ =>
        df_pos <- lift (positions_frame active) ;;
        paginated_table df_pos "当前持仓" default_page_size
    | [] => emit (Info "无当前持仓")
    end ;;;
    emit (Markdown "### 📋 当前委托订单（含中文触发条件）") ;;;
    match open_orders with
    | VList (o :: os) =>
        df_orders <- lift (process_orders (o :: os)) ;;
        paginated_table df_orders "当前委托" default_page_size
    | _ => emit (Info "无当前委托")
    end ;;;
    emit (Markdown "### 🕒 最近成交记录（仓位历史）") ;;;
    match trade_history with
    | VList (t :: ts) =>
        df_trades <- lift (trades_frame (t :: ts)) ;;
        paginated_table df_trades "成交记录" default_page_size
    | _ => emit (Info "无成交记录")
    end ;;;
    now <- (fun s => (Ok (strftime_now (st_world s)), s)) ;;
    emit (Markdown ("⏱ 最后刷新：" ++ now)) ;;;
    ret Continue.

(** One pass of the while loop, up to the sleep: the placeholder is emptied,
    the body runs, and any exception is reported and ends the loop. *)
(* The handler makes one st.error call and breaks; it cannot raise. *)
Definition cycle (api_key api_secret : string) (s : state) : control * state :=
  let s0 := {| st_world := st_world s;
               session_state := session_state s;
               calls := [] |} in
  match try_except (cycle_body api_key api_secret)
                   (fun e => emit (Error ("发生错误：" ++ exn_str e)) ;;; ret Break) s0 with
  | (Ok c, s') => (c, s')
  | (Raise _, s') => (Break, s')
  end.

(** while True, for at most [fuel] passes; [None] when the fuel runs out
    with the loop still polling. *)
Fixpoint poll (fuel : nat) (api_key api_secret : string) (refresh_interval : Z)
    (s : state) : option state :=
  match fuel with
  | O => None
  | S fuel' =>
      match cycle api_key api_secret s with
      | (Break, s') => Some s'
      | (Continue, s') =>
          poll fuel' api_key api_secret refresh_interval
               {| st_world := sleep refresh_interval (st_world s');
                  session_state := session_state s';
                  calls := calls s' |}
      end
  end.

(** Lines 77-187 *)
Definition main (fuel : nat) (api_key api_secret : string) (refresh_interval : Z)
    (s : state) : option state :=
  if negb (String.eqb api_key "") && negb (String.eqb api_secret "")
  then poll fuel api_key api_secret refresh_interval s
  else Some {| st_world := st_world s;
               session_state := session_state s;
               calls := calls s ++ [Warning "请在左侧输入 API Key 和 Secret Key 后开始"] |}.

End Program.

(** ** A small concrete interpreter and world, to run the program on examples.

    Floats are replaced by fixed-point decimals with four places (the integer
    [x] stands for x/10000), which is exact on the short decimal literals of
    the examples below; [float_of_str] accepts an optional sign, digits and
    an optional fraction, and nothing else. *)
Module Demo.

Definition digit_of (c : ascii) : option Z :=
  let n := Z.of_N (N_of_ascii c) in
  if (48 <=? n) && (n <=? 57) then Some (n - 48) else None.

Fixpoint digits_value (cs : list ascii) (acc : Z) : option Z :=
  match cs with
  | [] => Some acc
  | c :: rest =>
      match digit_of c with
      | Some d => digits_value rest (10 * acc + d)
      | None => None
      end
  end.

Fixpoint split_dot (cs : list ascii) : list ascii * option (list ascii) :=
  match cs with
  | [] => ([], None)
  | c :: rest =>
      if Ascii.eqb c "." then ([], Some rest)
      else let (a, b) := split_dot rest in (c :: a, b)
  end.

Definition four_places (frac : list ascii) : list ascii :=
  firstn 4 (frac ++ repeat "0"%char 4).

Definition unsigned_of (cs : list ascii) : option Z :=
  let (whole, frac) := split_dot cs in
  let frac := match frac with Some f => f | None => [] end in
  match whole, frac with
  | [], [] => None
  | _, _ =>
      match digits_value whole 0, digits_value frac 0, digits_value (four_places frac) 0 with
      | Some w, Some _, Some f => Some (w * 10000 + f)
      | _, _, _ => None
      end
  end.

Definition fixed_of_str (s : string) : option Z :=
  match list_ascii_of_string s with
  | c :: rest =>
      if Ascii.eqb c "-" then option_map Z.opp (unsigned_of rest)
      else if Ascii.eqb c "+" then unsigned_of rest
      else unsigned_of (c :: rest)
  | [] => None
  end.

Definition nat_str (z : Z) : string := NilZero.string_of_uint (N.to_uint (Z.to_N z)).

Definition zero_pad (width : nat) (s : string) : string :=
  string_of_list_ascii (repeat "0"%char (width - String.length s)) ++ s.

(** Rounding to [n] places, ties to even, for n <= 4; zeros appended beyond. *)
Definition fixed_format (n : nat) (x : Z) : string :=
  let sign := if x <? 0 then "-" else "" in
  let a := Z.abs x in
  if (n <=? 4)%nat then
    let scale := 10 ^ Z.of_nat (4 - n) in
    let q := a / scale in
    let r := a mod scale in
    let q := if (scale <? 2 * r) || ((scale =? 2 * r) && Z.odd q) then q + 1 else q in
    let unit := 10 ^ Z.of_nat n in
    sign ++ nat_str (q / unit)
         ++ (if (n =? 0)%nat then "" else "." ++ zero_pad n (nat_str (q mod unit)))
  else
    sign ++ nat_str (a / 10000) ++ "." ++ zero_pad 4 (nat_str (a mod 10000))
         ++ string_of_list_ascii (repeat "0"%char (n - 4)).

Fixpoint strip_zeros (rev_digits : list ascii) : list ascii :=
  match rev_digits with
  | c :: (_ :: _) as rest => if Ascii.eqb c "0" then strip_zeros rest else rev_digits
  | _ => rev_digits
  end.

Definition fixed_repr (x : Z) : string :=
  let sign := if x <? 0 then "-" else "" in
  let a := Z.abs x in
  let frac := list_ascii_of_string (zero_pad 4 (nat_str (a mod 10000))) in
  sign ++ nat_str (a / 10000) ++ "." ++ string_of_list_ascii (rev (strip_zeros (rev frac))).

Definition exception_text (e : exn) : string :=
  match e with
  | KeyError k => "'" ++ k ++ "'"
  | ValueError => "could not convert string to float"
  | TypeError => "unsupported operand"
  | AttributeError => "object has no attribute 'get'"
  | OverflowError => "int too large to convert to float"
  | ZeroDivisionError => "integer division or modulo by zero"
  | LibraryError what => what
  end.

Definition builtins : Builtins := {|
  float := Z;
  float_of_str := fixed_of_str;
  float_of_int := fun z => Some (z * 10000);
  float_gt0 := fun x => 0 <? x;
  float_ne0 := fun x => negb (x =? 0);
  float_fixed := fixed_format;
  float_repr := fixed_repr;
  str_repr := fun s => "'" ++ s ++ "'";
  exn_str := exception_text;
  float_of_str_empty := eq_refl
|}.

(** The world: a clock, a server answering by URL, and the page the user
    picks next in a selector. *)
Record demo_world := {
  clock : Z;
  server : string -> result (@response builtins);
  next_pick : Z
}.

(** st.selectbox raises a StreamlitAPIException when the index is not a
    position of the options; otherwise it gives back the user's choice. *)
Definition demo_selectbox (title : string) (options : list Z) (index : Z)
    (key : string) (w : demo_world) : result Z * demo_world :=
  if (0 <=? index) && (index <? Z.of_nat (length options))
  then (Ok (if existsb (Z.eqb (next_pick w)) options
            then next_pick w else nth (Z.to_nat index) options 1), w)
  else (Raise (LibraryError "Selectbox index must be between 0 and length of options"), w).

Definition project (columns : list (string * string)) (v : @value builtins) : @row builtins :=
  match v with
  | VDict d =>
      map (fun c => (snd c, match dict_get d (fst c) with
                            | Some x => x
                            | None => VNone
                            end)) columns
  | _ => []
  end.

Definition runtime : @Runtime builtins := {|
  world := demo_world;
  time_ms := fun w => (clock w, {| clock := clock w + 1; server := server w;
                                   next_pick := next_pick w |});
  requests_get := fun url _ w => (server w url, w);
  selectbox_value := demo_selectbox;
  strftime_now := fun w => "t=" ++ int_str (clock w);
  sleep := fun n w => {| clock := clock w + 1000 * n; server := server w;
                         next_pick := next_pick w |};
  fromtimestamp_str := fun v =>
    match v with
    | VInt z => Ok ("t=" ++ int_str z)
    | _ => Raise TypeError
    end;
  positions_frame := fun l =>
    Ok (map (project [("symbol", "交易对"); ("positionAmt", "持仓数量");
                      ("entryPrice", "开仓均价"); ("markPrice", "标记价格");
                      ("unRealizedProfit", "未实现盈亏"); ("leverage", "杠杆");
                      ("marginType", "保证金类型")]) l);
  trades_frame := fun l =>
    Ok (map (project [("symbol", "交易对"); ("side", "方向"); ("qty", "数量");
                      ("price", "价格"); ("realizedPnl", "已实现盈亏");
                      ("time", "时间")]) l)
|}.

(** A server that answers every URL under a path prefix with a fixed body. *)
Definition answers (table : list (string * @response builtins)) (url : string)
    : result (@response builtins) :=
  match find (fun e => String.prefix (BINANCE_FUTURES_API_URL ++ fst e ++ "?") url) table with
  | Some e => Ok (snd e)
  | None => Raise (LibraryError "ConnectionError")
  end.

Definition json_body (v : @value builtins) : @response builtins :=
  {| resp_text := ""; resp_json := Ok v |}.

Definition start (w : demo_world) : @state builtins runtime :=
  @Build_state builtins runtime w ∅ [].

Definition at_time (w : demo_world) (t : Z) : demo_world :=
  {| clock := t; server := server w; next_pick := next_pick w |}.

(** An exchange that rejects the API key on the account endpoint. *)
Definition rejected_key : @dict builtins :=
  [("code", VInt (-2015));
   ("msg", VStr "Invalid API-key, IP, or permissions for action.")].
Definition rejecting_world : demo_world :=
  {| clock := 1700000000000;
     server := answers [ ("/fapi/v2/account", json_body (VDict rejected_key));
                         ("/fapi/v2/positionRisk", json_body (VList []));
                         ("/fapi/v1/openOrders", json_body (VList []));
                         ("/fapi/v1/userTrades", json_body (VList [])) ];
     next_pick := 1 |}.

(** A gateway that answers with an HTML error page. *)
Definition gateway_page : @response builtins :=
  {| resp_text := "<html>502 Bad Gateway</html>"; resp_json := Raise ValueError |}.
Definition gateway_world : demo_world :=
  {| clock := 1700000000000;
     server := answers [ ("/fapi/v2/account", gateway_page) ];
     next_pick := 1 |}.

(** A table of [n] numbered rows. *)
Definition numbered (n : nat) : @frame builtins :=
  map (fun i => [("n", VInt (Z.of_nat i))]) (seq 0 n).

(** A state in which page [p] is stored for the table [label]. *)
Definition on_page (label : string) (p : Z) : @state builtins runtime :=
  @Build_state builtins runtime rejecting_world {[ (label ++ "_page")%string := p ]} [].

Definition stop_order : @dict builtins :=
  [("symbol", VStr "BTCUSDT"); ("type", VStr "STOP_MARKET"); ("side", VStr "SELL");
   ("workingType", VStr "MARK_PRICE"); ("triggerPrice", VStr "50000.1")].
Definition limit_order : @dict builtins :=
  [("symbol", VStr "BTCUSDT"); ("type", VStr "LIMIT"); ("side", VStr "BUY");
   ("price", VStr "100"); ("triggerPrice", VStr "100")].

Definition some_positions : list (@value builtins) :=
  [ VDict [("symbol", VStr "BTCUSDT"); ("positionAmt", VStr "0.001")];
    VDict [("symbol", VStr "ETHUSDT"); ("positionAmt", VStr "0")];
    VDict [("symbol", VStr "SOLUSDT"); ("positionAmt", VStr "-2")] ].
Definition bad_positions : list (@value builtins) :=
  [ VDict [("symbol", VStr "BTCUSDT"); ("positionAmt", VStr "abc")] ].

Definition clashing_extra : @dict builtins :=
  [("signature", VStr "x"); ("limit", VInt 50)].

(** A state in which page [p] is stored for the table [label] and the user
    is about to pick page [pick]. *)
Definition browsing (label : string) (p pick : Z) : @state builtins runtime :=
  @Build_state builtins runtime
    {| clock := clock rejecting_world; server := server rejecting_world; next_pick := pick |}
    {[ (label ++ "_page")%string := p ]} [].

(** An exchange that answers the account endpoint with a list. *)
Definition listing_world : demo_world :=
  {| clock := 1700000000000;
     server := answers [ ("/fapi/v2/account", json_body (VList []));
                         ("/fapi/v2/positionRisk", json_body (VList []));
                         ("/fapi/v1/openOrders", json_body (VList []));
                         ("/fapi/v1/userTrades", json_body (VList [])) ];
     next_pick := 1 |}.

(** An account with balances and nothing else. *)
Definition quiet_account : @dict builtins :=
  [("totalWalletBalance", VStr "100.5");
   ("totalUnrealizedProfit", VStr "-2.3");
   ("totalMarginBalance", VStr "98.2")].
Definition quiet_world : demo_world :=
  {| clock := 1700000000000;
     server := answers [ ("/fapi/v2/account", json_body (VDict quiet_account));
                         ("/fapi/v2/positionRisk", json_body (VList []));
                         ("/fapi/v1/openOrders", json_body (VList []));
                         ("/fapi/v1/userTrades", json_body (VList [])) ];
     next_pick := 1 |}.

(** The same account, with a position whose amount is not a number. *)
Definition broken_world : demo_world :=
  {| clock := 1700000000000;
     server := answers [ ("/fapi/v2/account", json_body (VDict quiet_account));
                         ("/fapi/v2/positionRisk", json_body (VList bad_positions));
                         ("/fapi/v1/openOrders", json_body (VList []));
                         ("/fapi/v1/userTrades", json_body (VList [])) ];
     next_pick := 1 |}.

(** An exchange that rejects the API key on the account endpoint and is
    out of reach for every other request. *)
Definition cut_off_world : demo_world :=
  {| clock := 1700000000000;
     server := answers [ ("/fapi/v2/account", json_body (VDict rejected_key)) ];
     next_pick := 1 |}.

(** [n] trades, told apart by their time. *)
Definition trades (n : nat) : list (@value builtins) :=
  map (fun i => VDict [("symbol", VStr "BTCUSDT"); ("side", VStr "BUY");
                       ("qty", VStr "0.001"); ("price", VStr "50000");
                       ("realizedPnl", VStr "0"); ("time", VInt (Z.of_nat i))])
      (seq 0 n).

(** The quiet account again, now with 25 trades behind it and a user who
    picks page 2 of the trade table. *)
Definition busy_world : demo_world :=
  {| clock := 1700000000000;
     server := answers [ ("/fapi/v2/account", json_body (VDict quiet_account));
                         ("/fapi/v2/positionRisk", json_body (VList []));
                         ("/fapi/v1/openOrders", json_body (VList []));
                         ("/fapi/v1/userTrades", json_body (VList (trades 25))) ];
     next_pick := 2 |}.

(** That world, with page [p] stored for the trade table. *)
Definition busy_on_page (p : Z) : @state builtins runtime :=
  @Build_state builtins runtime busy_world {[ "成交记录_page" := p ]} [].

End Demo.

(** ** Auxiliary notions used in the statements *)

(** Every byte of the string is one that quote leaves alone. *)
Definition all_safe (s : string) : bool :=
  forallb (fun c => Urllib.mem_char c Urllib.always_safe) (list_ascii_of_string s).

(** extra_params or {} *)
Definition extra_or_empty {B : Builtins} (extra_params : option dict) : dict :=
  match extra_params with
  | Some e => e
  | None => []
  end.

Definition is_ok {A} (r : result A) : bool :=
  match r with
  | Ok _ => true
  | Raise _ => false
  end.

(** float(p['positionAmt']) *)
Definition position_amount {B : Builtins} (p : value) : result float :=
  result_bind (py_getitem p "positionAmt") py_float.

Definition nonzero_amount {B : Builtins} (p : value) : bool :=
  match position_amount p with
  | Ok x => float_ne0 x
  | Raise _ => false
  end.

(** order.get(key, '') on a dict *)
Definition order_field {B : Builtins} (d : dict) (key : string) : value :=
  match dict_get d key with
  | Some v => v
  | None => VStr ""
  end.

(** The label chosen by the working-price type. *)
Definition price_label {B : Builtins} (working_type : value) : string :=
  if py_eq_str working_type "MARK_PRICE" then "标记价格" else "最新价格".


(** Every number kept in st.session_state, a stored page or the value of a
    page selector, is a 1-indexed page. *)
Definition pages_positive (pages_by_key : gmap string Z) : Prop :=
  map_Forall (fun _ p => 1 <= p) pages_by_key.

(** The state in which a pass of the loop starts: the placeholder emptied. *)
Definition fresh_placeholder {B : Builtins} {R : Runtime} (s : state) : state :=
  {| st_world := st_world s; session_state := session_state s; calls := [] |}.

(** The state in which pass number [n] of the while loop starts, counting
    from 0: every pass before it went through and was followed by the
    sleep of line 185. [None] when an earlier pass broke out of the loop. *)
Fixpoint pass_start {B : Builtins} {R : Runtime} (n : nat) (api_key api_secret : string)
    (refresh_interval : Z) (s : state) : option state :=
  match n with
  | O => Some s
  | S n' =>
      match cycle api_key api_secret s with
      | (Break, _) => None
      | (Continue, s') =>
          pass_start n' api_key api_secret refresh_interval
            {| st_world := sleep refresh_interval (st_world s');
               session_state := session_state s';
               calls := calls s' |}
      end
  end.

(** account_info.get('msg', account_info) on a dict *)
Definition server_message {B : Builtins} (d : dict) : value :=
  match dict_get d "msg" with
  | Some m => m
  | None => VDict d
  end.

(** What signed_get makes of the outcome of requests.get (lines 28-32): the
    parsed or fallback body of a response, or the exception as it came. *)
Definition finish_request {B : Builtins} {R : Runtime} (s : state)
    (outcome : result response * world) : result value * state :=
  match outcome with
  | (Ok resp, w) =>
      (Ok (parse_response resp),
       {| st_world := w; session_state := session_state s; calls := calls s |})
  | (Raise e, w) =>
      (Raise e,
       {| st_world := w; session_state := session_state s; calls := calls s |})
  end.

(** The characters a query string may be made of: the unreserved ones and
    the four that percent-encoding and the key=value&... layout add. *)
Definition url_char (c : ascii) : bool :=
  Urllib.mem_char c Urllib.always_safe || Urllib.mem_char c "%+=&".

(** A percent-decoder for what quote_plus writes: %XX with upper-case
    hexadecimal digits is a byte, + is a space, anything else is itself. *)
Fixpoint position_of (c : ascii) (l : list ascii) (i : Z) : option Z :=
  match l with
  | [] => None
  | x :: rest => if Ascii.eqb c x then Some i else position_of c rest (i + 1)
  end.
Definition hex_value (c : ascii) : option Z :=
  position_of c (list_ascii_of_string "0123456789ABCDEF") 0.
Fixpoint unquote_chars (cs : list ascii) : option (list ascii) :=
  match cs with
  | [] => Some []
  | c :: rest =>
      if Ascii.eqb c "%" then
        match rest with
        | h :: l :: rest' =>
            match hex_value h, hex_value l with
            | Some a, Some b =>
                option_map (cons (ascii_of_N (Z.to_N (16 * a + b)))) (unquote_chars rest')
            | _, _ => None
            end
        | _ => None
        end
      else option_map (cons (if Ascii.eqb c "+" then " "%char else c)) (unquote_chars rest)
  end.
Definition unquote_plus (s : string) : option string :=
  option_map string_of_list_ascii (unquote_chars (list_ascii_of_string s)).

(** The rows df.iloc[start:end] of lines 55-57 for page [p]. *)
Definition visible_rows {B : Builtins} (df : frame) (page_size p : Z) : frame :=
  py_slice df ((p - 1) * page_size) ((p - 1) * page_size + page_size).

(** order.get('time', 0) on a dict *)
Definition order_time {B : Builtins} (d : dict) : value :=
  match dict_get d "time" with
  | Some t => t
  | None => VInt 0
  end.

(** The eight cells of an order's row, given its label and its time text. *)
Definition order_row {B : Builtins} (d : dict) (label : value) (placed : string) : row :=
  [ ("交易对", order_field d "symbol");
    ("方向", order_field d "side");
    ("数量", order_field d "origQty");
    ("价格", order_field d "price");
    ("类型", label);
    ("状态", order_field d "status");
    ("触发条件",
     VStr (trigger_condition (order_field d "type") (order_field d "triggerPrice")
             (order_field d "workingType") (order_field d "side")));
    ("下单时间", VStr placed) ].

(** Lines 83-86: the four requests of a pass, in their order. *)
Definition fetch_all {B : Builtins} {R : Runtime} (api_key api_secret : string)
    : M (value * value * value * value) :=
  bind (get_account_info api_key api_secret) (fun account_info =>
  bind (get_positions api_key api_secret) (fun positions =>
  bind (get_open_orders api_key api_secret) (fun open_orders =>
  bind (get_position_history api_key api_secret) (fun trade_history =>
  ret (account_info, positions, open_orders, trade_history))))).

(** float(account_info[key]) on a dict *)
Definition balance {B : Builtins} (d : dict) (key : string) : result float :=
  result_bind (py_getitem (VDict d) key) py_float.

(** Line 103 on the positions as they came: iteration, then the filter. *)
Definition shown_positions {B : Builtins} (positions : value) : result (list value) :=
  result_bind (py_iter positions) active_positions.

(** isinstance(v, list) and v *)
Definition is_nonempty_list {B : Builtins} (v : value) : bool :=
  match v with
  | VList (_ :: _) => true
  | _ => false
  end.

(** The st.error call of the except handler (line 182). *)
Definition generic_error {B : Builtins} (e : exn) : call :=
  Error ("发生错误：" ++ exn_str e).

(** The last st.markdown call of a pass that went through (line 179). *)
Definition refresh_stamp {B : Builtins} {R : Runtime} (w : world) : call :=
  Markdown ("⏱ 最后刷新：" ++ strftime_now w).

(** The selector gives back one of the options it was offered. *)
Definition selector_answers_in_options {B : Builtins} {R : Runtime} : Prop :=
  forall title options index key w v w',
    selectbox_value title options index key w = (Ok v, w') -> In v options.

(** A step of the program that keeps stored page numbers 1-indexed. *)
Definition keeps_pages {B : Builtins} {R : Runtime} {A} (m : M A) : Prop :=
  forall s r s',
    pages_positive (session_state s) -> m s = (r, s') ->
    pages_positive (session_state s').

(** * Proofs *)

(** ** Strings and hexadecimal digits *)

Lemma string_of_list_ascii_length (l : list ascii) :
  String.length (string_of_list_ascii l) = length l.
Proof. induction l as [|c l IH]; simpl; [reflexivity | now rewrite IH]. Qed.

Lemma append_assoc (a b c : string) : ((a ++ b) ++ c = a ++ (b ++ c))%string.
Proof.
  induction a as [|x a IH]; [reflexivity|].
  change (String x ((a ++ b) ++ c) = String x (a ++ (b ++ c)))%string.
  now f_equal.
Qed.

Lemma nth_digit_in (digits : list ascii) (d : Z) (P : ascii -> bool) :
  length digits = 16%nat ->
  forallb P digits = true ->
  P (nth (Z.to_nat (d mod 16)) digits "0"%char) = true.
Proof.
  intros Hlen Hall.
  rewrite forallb_forall in Hall. apply Hall, nth_In.
  pose proof (Z.mod_pos_bound d 16). lia.
Qed.

Lemma hex_digit_lower (d : Z) : is_lower_hex (hex_digit d) = true.
Proof. unfold hex_digit. now apply nth_digit_in. Qed.

Lemma hex_length (bs : list Z) : String.length (hex bs) = (2 * length bs)%nat.
Proof.
  unfold hex. rewrite string_of_list_ascii_length.
  induction bs as [|b bs IH]; simpl; [reflexivity | rewrite IH; lia].
Qed.

Lemma hex_lower (bs : list Z) :
  forallb is_lower_hex (list_ascii_of_string (hex bs)) = true.
Proof.
  unfold hex. rewrite list_ascii_of_string_of_list_ascii.
  induction bs as [|b bs IH]; simpl; [reflexivity |].
  now rewrite !hex_digit_lower, IH.
Qed.

(** ** SHA-256 and HMAC *)

Lemma sha256_length (msg : list Z) : length (Sha256.sha256 msg) = 32%nat.
Proof.
  unfold Sha256.sha256.
  generalize (fold_left Sha256.compress
                (Sha256.blocks (length (Sha256.pad msg)) (Sha256.pad msg))
                Sha256.initial_regs).
  intros r. reflexivity.
Qed.

Lemma hmac_object_rfc (key msg : list Z) :
  Hmac.hmac_digest (Hmac.hmac_new key msg) = Hmac.hmac_sha256 key msg.
Proof.
  unfold Hmac.hmac_digest, Hmac.hmac_new, Hmac.hmac_sha256, Hmac.rfc_key,
    Hmac.digest, Hmac.update, Hmac.new_hash, Hmac.ljust, Hmac.translate,
    Hmac.block_size.
  cbn [Hmac.fed Hmac.inner Hmac.outer app]. reflexivity.
Qed.

(** ** urllib *)

Lemma safe_not_space (c : ascii) :
  Urllib.mem_char c Urllib.always_safe = true -> Ascii.eqb c " " = false.
Proof.
  intros H. destruct (Ascii.eqb_spec c " ") as [->|]; [|reflexivity].
  vm_compute in H. discriminate.
Qed.

Lemma upper_hex_not_space (d : Z) : Ascii.eqb (Urllib.upper_hex d) " " = false.
Proof.
  unfold Urllib.upper_hex.
  pose proof (nth_digit_in (list_ascii_of_string "0123456789ABCDEF") d
                (fun c => negb (Ascii.eqb c " ")) eq_refl eq_refl) as H.
  now apply negb_true_iff in H.
Qed.

Lemma no_space_chars (s : string) (c : ascii) :
  Urllib.mem_char " " s = false ->
  In c (list_ascii_of_string s) -> Ascii.eqb c " " = false.
Proof.
  intros Hno Hin. destruct (Ascii.eqb_spec c " ") as [->|]; [|reflexivity].
  unfold Urllib.mem_char in Hno.
  assert (existsb (Ascii.eqb " ") (list_ascii_of_string s) = true); [|congruence].
  apply existsb_exists. exists " "%char. split; [assumption | reflexivity].
Qed.

Lemma mem_char_space (c : ascii) : Urllib.mem_char c " " = Ascii.eqb c " ".
Proof. unfold Urllib.mem_char. simpl. apply orb_false_r. Qed.

(** quote_plus, with its two branches, encodes byte by byte. *)
Lemma quote_plus_encode (s : string) :
  Urllib.quote_plus s = Urllib.encode_component s.
Proof.
  unfold Urllib.quote_plus, Urllib.encode_component.
  destruct (Urllib.mem_char " " s) eqn:Hsp; simpl.
  - unfold Urllib.replace_space, Urllib.quote.
    destruct s as [|c0 s0] eqn:Es; [discriminate Hsp|]. rewrite <- Es.
    rewrite list_ascii_of_string_of_list_ascii. f_equal.
    unfold Urllib.quote_from_bytes. rewrite concat_map, map_map. f_equal.
    apply map_ext. intros a. unfold Urllib.encode_byte.
    rewrite mem_char_space.
    destruct (Urllib.mem_char a Urllib.always_safe) eqn:Ha; simpl.
    + now rewrite (safe_not_space _ Ha).
    + destruct (Ascii.eqb a " ") eqn:Hb; simpl; [now rewrite Hb|].
      now rewrite !upper_hex_not_space.
  - unfold Urllib.quote.
    destruct s as [|c0 s0] eqn:Es; [reflexivity|]. rewrite <- Es in *.
    f_equal. unfold Urllib.quote_from_bytes. f_equal.
    apply map_ext_in. intros a Ha. unfold Urllib.encode_byte.
    rewrite orb_false_r.
    destruct (Urllib.mem_char a Urllib.always_safe); [reflexivity|].
    now rewrite (no_space_chars s a Hsp Ha).
Qed.

Section SignerProofs.
Context {B : Builtins}.

Lemma urlencode_canonical (params : dict) : urlencode params = canonical_query params.
Proof.
  unfold urlencode, canonical_query. f_equal.
  apply map_ext. intros [k v]. simpl. now rewrite !quote_plus_encode.
Qed.

Lemma sign_request_rfc (params : dict) (secret_key : string) :
  sign_request params secret_key
  = hex (Hmac.hmac_sha256 (encode_utf8 secret_key)
                          (encode_utf8 (canonical_query params))).
Proof.
  unfold sign_request, Hmac.hexdigest.
  now rewrite hmac_object_rfc, urlencode_canonical.
Qed.

(** C1. sign_request(P, S) is the lowercase hexadecimal HMAC-SHA256 digest of
    the UTF-8 bytes of the canonical query string of P (parameters in the
    order given, percent-encoded), keyed by the UTF-8 bytes of S; being a
    function of P and S alone it is deterministic, and it always has 64
    characters, all lowercase hexadecimal digits. *)
Theorem sign_request_spec (params : dict) (secret_key : string) :
  sign_request params secret_key
  = hex (Hmac.hmac_sha256 (encode_utf8 secret_key)
                          (encode_utf8 (canonical_query params)))
  /\ String.length (sign_request params secret_key) = 64%nat
  /\ forallb is_lower_hex (list_ascii_of_string (sign_request params secret_key)) = true.
Proof.
  rewrite sign_request_rfc. split; [reflexivity|]. split.
  - rewrite hex_length. unfold Hmac.hmac_sha256. now rewrite sha256_length.
  - apply hex_lower.
Qed.

End SignerProofs.

(** ** API client *)

Lemma encode_component_safe (s : string) :
  all_safe s = true -> Urllib.encode_component s = s.
Proof.
  unfold all_safe, Urllib.encode_component. intros H.
  rewrite <- (string_of_list_ascii_of_string s) at 2. f_equal.
  induction (list_ascii_of_string s) as [|c l IH]; [reflexivity|].
  simpl in H. apply andb_true_iff in H as [Hc Hl].
  simpl. unfold Urllib.encode_byte at 1. rewrite Hc. simpl. now rewrite IH.
Qed.

Lemma uint_str_safe (d : Decimal.uint) : all_safe (NilEmpty.string_of_uint d) = true.
Proof. unfold all_safe. induction d; simpl; auto. Qed.

Lemma nilzero_uint_safe (d : Decimal.uint) : all_safe (NilZero.string_of_uint d) = true.
Proof.
  unfold NilZero.string_of_uint. destruct d; first [reflexivity | apply uint_str_safe].
Qed.

Lemma int_str_safe (z : Z) : all_safe (int_str z) = true.
Proof.
  unfold int_str, NilZero.string_of_int.
  destruct (Z.to_int z) as [d|d]; [apply nilzero_uint_safe|].
  pose proof (nilzero_uint_safe d) as Hd. unfold all_safe in *.
  cbn [list_ascii_of_string forallb]. rewrite Hd. reflexivity.
Qed.

Lemma lower_hex_safe (c : ascii) :
  is_lower_hex c = true -> Urllib.mem_char c Urllib.always_safe = true.
Proof.
  unfold is_lower_hex. intros H. apply existsb_exists in H as [x [Hin Hx]].
  apply Ascii.eqb_eq in Hx. subst x.
  simpl in Hin. repeat (destruct Hin as [<-|Hin]; [reflexivity|]). destruct Hin.
Qed.

Lemma join_snoc (sep : string) (l : list string) (x y : string) :
  Urllib.join sep ((x :: l) ++ [y])%list = (Urllib.join sep (x :: l) ++ sep ++ y)%string.
Proof.
  revert x. induction l as [|z l IH]; intros x.
  - reflexivity.
  - change (Urllib.join sep ((x :: z :: l) ++ [y])%list)
      with (x ++ sep ++ Urllib.join sep ((z :: l) ++ [y])%list)%string.
    rewrite IH.
    change (Urllib.join sep (x :: z :: l))
      with (x ++ sep ++ Urllib.join sep (z :: l))%string.
    now rewrite !append_assoc.
Qed.

Section ClientProofs.
Context {B : Builtins} {R : Runtime}.

Lemma sign_request_safe (params : dict) (secret_key : string) :
  all_safe (sign_request params secret_key) = true.
Proof.
  unfold all_safe. rewrite sign_request_rfc.
  pose proof (hex_lower (Hmac.hmac_sha256 (encode_utf8 secret_key)
                           (encode_utf8 (canonical_query params)))) as Hhex.
  rewrite forallb_forall in *. intros c Hc. apply lower_hex_safe. auto.
Qed.

Lemma dict_set_absent {V} (d : list (string * V)) (k : string) (v : V) :
  dict_get d k = None -> dict_set d k v = (d ++ [(k, v)])%list.
Proof.
  induction d as [|[k' v'] d IH]; simpl; [reflexivity|].
  destruct (String.eqb k' k); [discriminate|].
  intros H. now rewrite IH.
Qed.

Lemma dict_get_set_other {V} (d : list (string * V)) (k k' : string) (v : V) :
  k <> k' -> dict_get (dict_set d k v) k' = dict_get d k'.
Proof.
  intros Hne. induction d as [|[k0 v0] d IH]; simpl.
  - destruct (String.eqb_spec k k'); [contradiction | reflexivity].
  - destruct (String.eqb_spec k0 k) as [->|]; simpl.
    + destruct (String.eqb_spec k k'); [contradiction | reflexivity].
    + now rewrite IH.
Qed.

Lemma dict_update_get_absent {V} (e d : list (string * V)) (k : string) :
  dict_get e k = None -> dict_get (dict_update d e) k = dict_get d k.
Proof.
  unfold dict_update. revert d.
  induction e as [|[k0 v0] e IH]; intros d; simpl; [reflexivity|].
  destruct (String.eqb_spec k0 k) as [->|Hne]; [discriminate|].
  intros H. rewrite (IH _ H). now apply dict_get_set_other.
Qed.

Lemma dict_set_cons {V} (d : list (string * V)) (k : string) (v : V) :
  exists kv rest, dict_set d k v = kv :: rest.
Proof.
  destruct d as [|[k' v'] d]; simpl; [eauto|].
  destruct (String.eqb k' k); eauto.
Qed.

Lemma dict_update_cons {V} (e : list (string * V)) (kv : string * V) (d : list (string * V)) :
  exists kv' rest, dict_update (kv :: d) e = kv' :: rest.
Proof.
  unfold dict_update. revert kv d.
  induction e as [|[k0 v0] e IH]; intros kv d; cbn [fold_left fst snd]; [eauto|].
  destruct (dict_set_cons (kv :: d) k0 v0) as (kv' & rest & ->). apply IH.
Qed.

(** What a call to signed_get does, step by step. *)
Lemma signed_get_run (endpoint api_key secret_key : string) (extra_params : option dict)
    (s : state) :
  signed_get endpoint api_key secret_key extra_params s
  = let (ts, w1) := time_ms (st_world s) in
    let url := signed_get_url endpoint (signed_get_params ts secret_key extra_params) in
    match requests_get url (get_headers api_key) w1 with
    | (Ok resp, w2) =>
        (Ok (parse_response resp),
         {| st_world := w2; session_state := session_state s; calls := calls s |})
    | (Raise e, w2) =>
        (Raise e,
         {| st_world := w2; session_state := session_state s; calls := calls s |})
    end.
Proof.
  unfold signed_get, bind, get_timestamp, with_world, ret. simpl.
  destruct (time_ms (st_world s)) as [ts w1]. simpl.
  destruct (requests_get _ _ w1) as [[resp|e] w2]; reflexivity.
Qed.

(** C4. When the body of the response does not parse as JSON, signed_get
    does not raise: it returns the fallback object holding the fixed error
    message and the raw text of the response. *)
Theorem signed_get_unparsable_body
    (endpoint api_key secret_key : string) (extra_params : option dict) (s : state)
    (ts : Z) (w1 w2 : world) (resp : response) (e : exn) :
  time_ms (st_world s) = (ts, w1) ->
  requests_get (signed_get_url endpoint (signed_get_params ts secret_key extra_params))
               (get_headers api_key) w1 = (Ok resp, w2) ->
  resp_json resp = Raise e ->
  signed_get endpoint api_key secret_key extra_params s
  = (Ok (VDict [("msg", VStr "无法解析响应"); ("raw", VStr (resp_text resp))]),
     {| st_world := w2; session_state := session_state s; calls := calls s |}).
Proof.
  intros Ht Hget Hjson. rewrite signed_get_run, Ht.
  cbv beta iota zeta. rewrite Hget.
  unfold parse_response. now rewrite Hjson.
Qed.

(** C8 (amended). When extraParams has no key named signature, the
    parameters of the request are extraParams merged into the dictionary
    holding the millisecond timestamp, followed by the signature as the last
    entry; the signature is computed over the merged parameters alone, so
    the URL requested carries the signed query string followed by
    &signature=<signature>.  The trade-history call passes limit=50 as its
    only extra parameter, the other three calls pass none. *)
Theorem signed_get_params_spec
    (endpoint api_key secret_key : string) (extra_params : option dict)
    (s : state) (ts : Z) (w1 : world) :
  time_ms (st_world s) = (ts, w1) ->
  dict_get (extra_or_empty extra_params) "signature" = None ->
  let merged := dict_update [("timestamp", VInt ts)] (extra_or_empty extra_params) in
  let signature := sign_request merged secret_key in
  signed_get_params ts secret_key extra_params
  = (merged ++ [("signature", VStr signature)])%list
  /\ signed_get endpoint api_key secret_key extra_params s
     = match requests_get
               (BINANCE_FUTURES_API_URL ++ endpoint ++ "?"
                ++ urlencode merged ++ "&signature=" ++ signature)%string
               (get_headers api_key) w1 with
       | (Ok resp, w2) =>
           (Ok (parse_response resp),
            {| st_world := w2; session_state := session_state s; calls := calls s |})
       | (Raise e, w2) =>
           (Raise e,
            {| st_world := w2; session_state := session_state s; calls := calls s |})
       end
  /\ get_position_history api_key secret_key
     = signed_get "/fapi/v1/userTrades" api_key secret_key (Some [("limit", VInt 50)])
  /\ get_account_info api_key secret_key
     = signed_get "/fapi/v2/account" api_key secret_key None
  /\ get_positions api_key secret_key
     = signed_get "/fapi/v2/positionRisk" api_key secret_key None
  /\ get_open_orders api_key secret_key
     = signed_get "/fapi/v1/openOrders" api_key secret_key None.
Proof.
  intros Htime Hnosig merged signature.
  assert (Hparams : signed_get_params ts secret_key extra_params
                    = (merged ++ [("signature", VStr signature)])%list).
  { unfold signed_get_params.
    assert (Hm : (if py_truthy_dict extra_params
                  then dict_update [("timestamp", VInt ts)]
                         match extra_params with Some e => e | None => [] end
                  else [("timestamp", VInt ts)]) = merged).
    { subst merged. destruct extra_params as [[|kv e]|]; reflexivity. }
    rewrite Hm. apply dict_set_absent.
    subst merged. now rewrite dict_update_get_absent. }
  assert (Hquery : urlencode (signed_get_params ts secret_key extra_params)
                   = (urlencode merged ++ "&signature=" ++ signature)%string).
  { rewrite Hparams. unfold urlencode at 1 2. rewrite map_app. simpl map at 2.
    destruct (dict_update_cons (extra_or_empty extra_params) ("timestamp", VInt ts) [])
      as (kv & rest & Hcons).
    fold merged in Hcons. rewrite Hcons. cbn [map]. rewrite join_snoc.
    cbn [fst snd py_str]. rewrite !quote_plus_encode.
    rewrite (encode_component_safe signature) by apply sign_request_safe.
    reflexivity. }
  split; [exact Hparams|]. split; [|repeat split].
  rewrite signed_get_run, Htime. cbv beta iota zeta.
  unfold signed_get_url. rewrite Hquery. reflexivity.
Qed.

End ClientProofs.

(** ** Presenter *)

Section PresenterProofs.
Context {B : Builtins} {R : Runtime}.

Lemma active_positions_cons (p : value) (rest : list value) :
  active_positions (p :: rest)
  = result_bind (position_amount p) (fun x =>
      result_bind (active_positions rest) (fun kept =>
        Ok (if float_ne0 x then p :: kept else kept))).
Proof.
  unfold position_amount. cbn [active_positions].
  destruct (py_getitem p "positionAmt"); reflexivity.
Qed.

(** An entry whose amount is missing or does not parse makes the whole
    comprehension raise. *)
Lemma active_positions_raises (positions : list value) :
  Exists (fun p => is_ok (position_amount p) = false) positions ->
  exists e, active_positions positions = Raise e.
Proof.
  induction 1 as [p rest Hp | p rest _ [e IH]]; rewrite active_positions_cons.
  - destruct (position_amount p); [discriminate | eauto].
  - destruct (position_amount p); simpl; [rewrite IH|]; eauto.
Qed.

(** C6 (amended). For every list of positions whose entries all carry a
    position amount that parses as a number, the filter keeps exactly the
    entries whose amount is not zero, in their order: an amount of exactly
    0 is dropped, every non-zero amount is kept. *)
Theorem active_positions_spec (positions : list value) :
  Forall (fun p => is_ok (position_amount p) = true) positions ->
  active_positions positions = Ok (List.filter nonzero_amount positions)
  /\ (forall p, In p (List.filter nonzero_amount positions)
                <-> In p positions
                    /\ exists x, position_amount p = Ok x /\ float_ne0 x = true).
Proof.
  intros Hall. split.
  - induction Hall as [|p rest Hp _ IH]; [reflexivity|].
    rewrite active_positions_cons, IH. cbn [List.filter].
    unfold nonzero_amount. destruct (position_amount p); [reflexivity | discriminate].
  - intros p. rewrite filter_In. unfold nonzero_amount.
    destruct (position_amount p) as [x|e]; split; intros [Hin H]; split; auto.
    + eauto.
    + destruct H as (y & [= <-] & Hy). exact Hy.
    + discriminate.
    + destruct H as (y & Hy & _). discriminate.
Qed.

Lemma order_field_some (d : dict) (k : string) (v : value) :
  dict_get d k = Some v -> order_field d k = v.
Proof. unfold order_field. now intros ->. Qed.

Lemma order_field_none (d : dict) (k : string) :
  dict_get d k = None -> order_field d k = VStr "".
Proof. unfold order_field. now intros ->. Qed.

Lemma order_trigger_condition_dict (d : dict) :
  order_trigger_condition (VDict d)
  = Ok (trigger_condition (order_field d "type") (order_field d "triggerPrice")
          (order_field d "workingType") (order_field d "side")).
Proof. reflexivity. Qed.

(** C2. For an order whose trigger price is present, converts to a number
    and is > 0, the trigger condition is "<label> <op> <price to 4 places>":
    the label is the mark-price label when workingType is MARK_PRICE and the
    last-price label otherwise; for the take-profit types op is >= for SELL
    and <= for BUY, for the stop types op is <= for SELL and >= for BUY.
    When the trigger price is absent, does not convert, or is not > 0, the
    condition is the placeholder "-". *)
Theorem trigger_condition_spec (d : dict) :
  let order_type := order_field d "type" in
  let side := order_field d "side" in
  let label := price_label (order_field d "workingType") in
  match dict_get d "triggerPrice" with
  | Some price =>
      match py_float price with
      | Ok tp =>
          if float_gt0 tp then
            exists op,
              order_trigger_condition (VDict d)
              = Ok (label ++ " " ++ op ++ " " ++ float_fixed 4 tp)%string
              /\ (order_type = VStr "TAKE_PROFIT_MARKET" \/ order_type = VStr "TAKE_PROFIT" ->
                  (side = VStr "SELL" -> op = ">=") /\ (side = VStr "BUY" -> op = "<="))
              /\ (order_type = VStr "STOP_MARKET" \/ order_type = VStr "STOP" ->
                  (side = VStr "SELL" -> op = "<=") /\ (side = VStr "BUY" -> op = ">="))
          else order_trigger_condition (VDict d) = Ok "-"
      | Raise _ => order_trigger_condition (VDict d) = Ok "-"
      end
  | None => order_trigger_condition (VDict d) = Ok "-"
  end.
Proof.
  intros order_type side label.
  rewrite order_trigger_condition_dict. unfold trigger_condition.
  fold order_type side.
  destruct (dict_get d "triggerPrice") as [price|] eqn:Hprice.
  - rewrite (order_field_some _ _ _ Hprice).
    destruct (py_float price) as [tp|e]; [|reflexivity].
    destruct (float_gt0 tp); [|reflexivity].
    eexists. split; [reflexivity|].
    split; intros [Ht|Ht]; rewrite Ht; split; intros Hs; rewrite Hs; reflexivity.
  - rewrite (order_field_none _ _ Hprice).
    cbn [py_float]. now rewrite float_of_str_empty.
Qed.

(** C9. For an order whose trigger price converts to a number > 0 and whose
    type is none of the four directional types, the trigger condition is not
    the placeholder: it is "<label> - <price to 4 places>", with "-" in the
    operator's place. *)
Theorem trigger_condition_undirected (d : dict) (price : value) (tp : float) :
  dict_get d "triggerPrice" = Some price ->
  py_float price = Ok tp ->
  float_gt0 tp = true ->
  py_in_strs (order_field d "type")
    ["TAKE_PROFIT_MARKET"; "TAKE_PROFIT"; "STOP_MARKET"; "STOP"] = false ->
  order_trigger_condition (VDict d)
  = Ok (price_label (order_field d "workingType") ++ " - " ++ float_fixed 4 tp)%string
  /\ order_trigger_condition (VDict d) <> Ok "-".
Proof.
  intros Hprice Hfloat Hpos Htype.
  assert (Heq : order_trigger_condition (VDict d)
                = Ok (price_label (order_field d "workingType") ++ " - "
                      ++ float_fixed 4 tp)%string).
  { rewrite order_trigger_condition_dict. unfold trigger_condition.
    rewrite (order_field_some _ _ _ Hprice), Hfloat, Hpos.
    cbn [py_in_strs existsb] in *.
    apply orb_false_iff in Htype as [H1 Htype].
    apply orb_false_iff in Htype as [H2 Htype].
    apply orb_false_iff in Htype as [H3 Htype].
    apply orb_false_iff in Htype as [H4 _].
    rewrite H1, H2, H3, H4. reflexivity. }
  split; [exact Heq|]. rewrite Heq. unfold price_label.
  destruct (py_eq_str _ _); intros [= H]; discriminate H.
Qed.




End PresenterProofs.

(** ** Paginator *)

Lemma ceil_div_bounds (n k : Z) :
  0 < k -> (ceil_div n k - 1) * k < n <= ceil_div n k * k.
Proof.
  intros Hk. unfold ceil_div.
  pose proof (Z.div_mod (- n) k ltac:(lia)) as Hdm.
  pose proof (Z.mod_pos_bound (- n) k Hk) as Hb.
  set (q := - n / k) in *. set (r := (- n) mod k) in *.
  clearbody q r. nia.
Qed.

Lemma pages_ceil (n k : Z) : 0 < k -> (n - 1) / k + 1 = ceil_div n k.
Proof.
  intros Hk. pose proof (ceil_div_bounds n k Hk) as Hc.
  pose proof (Z.div_mod (n - 1) k ltac:(lia)) as Hdm.
  pose proof (Z.mod_pos_bound (n - 1) k Hk) as Hb.
  set (c := ceil_div n k) in *. set (q := (n - 1) / k) in *.
  set (r := (n - 1) mod k) in *. clearbody c q r. nia.
Qed.

Lemma py_range_length (a b : Z) : length (py_range a b) = Z.to_nat (b - a).
Proof. unfold py_range. now rewrite length_map, length_seq. Qed.

Lemma slice_index_nonneg (n i : Z) : 0 <= i -> slice_index n i = Z.min i n.
Proof. unfold slice_index. intros Hi. destruct (Z.ltb_spec i 0); [lia | reflexivity]. Qed.

Lemma slice_index_le (n i : Z) : 0 <= n -> slice_index n i <= n.
Proof. unfold slice_index. intros Hn. destruct (Z.ltb_spec i 0); lia. Qed.

(** Rows [start, start + len) of the table, as far as they exist. *)
Lemma py_slice_lookup {A} (l : list A) (start len : Z) (i : nat) :
  0 <= start -> 0 <= len ->
  py_slice l start (start + len) !! i
  = if Z.of_nat i <? len then l !! (Z.to_nat start + i)%nat else None.
Proof.
  intros Hs Hl. unfold py_slice.
  rewrite !slice_index_nonneg by lia.
  set (n := Z.of_nat (length l)).
  assert (Hn : n = Z.of_nat (length l)) by reflexivity.
  destruct (Z.ltb_spec (Z.of_nat i) len) as [Hi|Hi].
  - destruct (Z.lt_ge_cases (start + Z.of_nat i) n) as [Hin|Hout].
    + rewrite lookup_take_lt by lia. rewrite lookup_drop. f_equal. lia.
    + rewrite lookup_take_ge by lia. symmetry. apply lookup_ge_None. lia.
  - apply lookup_take_ge. lia.
Qed.

Lemma py_slice_length {A} (l : list A) (start len : Z) :
  0 <= start -> 0 <= len ->
  (length (py_slice l start (start + len)) <= Z.to_nat len)%nat.
Proof.
  intros Hs Hl. unfold py_slice. rewrite !slice_index_nonneg by lia.
  rewrite length_take. lia.
Qed.

Lemma py_slice_beyond {A} (l : list A) (start stop : Z) :
  Z.of_nat (length l) <= start -> py_slice l start stop = [].
Proof.
  intros Hs. unfold py_slice.
  rewrite (slice_index_nonneg _ start) by lia.
  pose proof (slice_index_le (Z.of_nat (length l)) stop ltac:(lia)).
  replace (Z.to_nat _) with 0%nat by lia. reflexivity.
Qed.

Section PaginatorProofs.
Context {B : Builtins} {R : Runtime}.

(** The calls made and the outcome when the table has more rows than a
    page: everything but the answer of the selector is fixed. *)
Lemma paginated_table_paged (df : frame) (label : string) (page_size : Z) (s : state) :
  page_size < Z.of_nat (length df) ->
  page_size <> 0 ->
  let page := match session_state s !! (label ++ "_page")%string with
              | Some p => p
              | None => 1
              end in
  let visible := py_slice df ((page - 1) * page_size) ((page - 1) * page_size + page_size) in
  let title := ("页码选择 - " ++ label)%string in
  let options := py_range 1 ((Z.of_nat (length df) - 1) / page_size + 1 + 1) in
  let key := (label ++ "_selector")%string in
  let shown := (calls s ++ [Dataframe visible; Selectbox title options (page - 1) key])%list in
  paginated_table df label page_size s
  = match selectbox_value title options (page - 1) key (st_world s) with
    | (Ok new_page, w) =>
        (Ok tt, {| st_world := w;
                   session_state :=
                     <[(label ++ "_page")%string := new_page]>
                       (<[key := new_page]> (session_state s));
                   calls := shown |})
    | (Raise e, w) =>
        (Raise e, {| st_world := w; session_state := session_state s; calls := shown |})
    end.
Proof.
  intros Hbig Hnz page visible title options key shown.
  unfold paginated_table.
  destruct (Z.leb_spec (Z.of_nat (length df)) page_size) as [|_]; [lia|].
  destruct (Z.eqb_spec page_size 0) as [|_]; [contradiction|].
  unfold bind, lift, emit, with_world. cbn [st_world session_state calls].
  fold page. fold visible. fold title. fold options. fold key.
  rewrite <- app_assoc. cbn [app]. fold shown.
  destruct (selectbox_value title options (page - 1) key (st_world s)) as [[new_page|e] w];
    reflexivity.
Qed.

(** Stored page numbers stay 1-indexed as long as the selector gives back one
    of the options it was offered. *)
Lemma paginated_table_pages_positive
    (df : frame) (label : string) (page_size : Z) (s s' : state) (r : result unit) :
  (forall title options index key w v w',
      selectbox_value title options index key w = (Ok v, w') -> In v options) ->
  pages_positive (session_state s) ->
  paginated_table df label page_size s = (r, s') ->
  pages_positive (session_state s').
Proof.
  intros Hsel Hpos.
  destruct (Z.le_gt_cases (Z.of_nat (length df)) page_size) as [Hsmall|Hbig].
  - unfold paginated_table.
    destruct (Z.leb_spec (Z.of_nat (length df)) page_size); [|lia].
    unfold emit. intros [= _ <-]. exact Hpos.
  - destruct (Z.eq_dec page_size 0) as [->|Hnz].
    + unfold paginated_table.
      destruct (Z.leb_spec (Z.of_nat (length df)) 0); [lia|].
      unfold bind, lift. cbn. intros [= _ <-]. exact Hpos.
    + rewrite paginated_table_paged by lia.
      destruct (selectbox_value _ _ _ _ _) as [[new_page|e] w] eqn:Hcall;
        intros [= _ <-]; cbn [session_state]; [|exact Hpos].
      apply Hsel in Hcall. unfold py_range in Hcall.
      apply in_map_iff in Hcall as (i & <- & _).
      repeat (apply map_Forall_insert_2; [lia|]). exact Hpos.
Qed.

(** C3. With a positive page size K and 1-indexed page numbers: a table of
    N <= K rows is shown whole, as one page with no page selector;
    otherwise the selector offers pages 1..ceil(N/K), the page used is the
    one stored under the label or 1 when none is stored, and the rows shown
    are those at positions [(page-1)*K, page*K) of the table: at most K
    rows, all of them rows of the table. *)
Theorem paginated_table_spec (df : frame) (label : string) (page_size : Z) (s : state) :
  0 < page_size ->
  let total := Z.of_nat (length df) in
  let page := match session_state s !! (label ++ "_page")%string with
              | Some p => p
              | None => 1
              end in
  1 <= page ->
  (total <= page_size ->
   paginated_table df label page_size s
   = (Ok tt, {| st_world := st_world s;
                session_state := session_state s;
                calls := (calls s ++ [Dataframe df])%list |}))
  /\ (page_size < total ->
      let pages := ceil_div total page_size in
      let start := Z.to_nat ((page - 1) * page_size) in
      exists visible,
        calls (snd (paginated_table df label page_size s))
        = (calls s ++ [Dataframe visible;
                       Selectbox ("页码选择 - " ++ label)%string (py_range 1 (pages + 1))
                                 (page - 1) (label ++ "_selector")%string])%list
        /\ length (py_range 1 (pages + 1)) = Z.to_nat pages
        /\ (pages - 1) * page_size < total <= pages * page_size
        /\ (forall i : nat,
              visible !! i = if Z.of_nat i <? page_size
                             then df !! (start + i)%nat else None)
        /\ (length visible <= Z.to_nat page_size)%nat
        /\ (forall (i : nat) (r : row),
              visible !! i = Some r -> (start + i < length df)%nat)).
Proof.
  intros Hk total page Hpage. split.
  - intros Hsmall. unfold paginated_table. fold total.
    destruct (Z.leb_spec total page_size); [reflexivity | lia].
  - intros Hbig pages start.
    exists (py_slice df ((page - 1) * page_size) ((page - 1) * page_size + page_size)).
    assert (Hlookup : forall i : nat,
      py_slice df ((page - 1) * page_size) ((page - 1) * page_size + page_size) !! i
      = if Z.of_nat i <? page_size then df !! (start + i)%nat else None).
    { intros i. apply py_slice_lookup; nia. }
    repeat split.
    + rewrite paginated_table_paged by (fold total; lia).
      fold total page. rewrite (pages_ceil total page_size Hk). fold pages.
      destruct (selectbox_value _ _ _ _ _) as [[new_page|e] w]; reflexivity.
    + rewrite py_range_length. f_equal. lia.
    + apply ceil_div_bounds, Hk.
    + apply ceil_div_bounds, Hk.
    + exact Hlookup.
    + apply py_slice_length; nia.
    + intros i r Hi. rewrite Hlookup in Hi.
      destruct (Z.of_nat i <? page_size); [|discriminate].
      apply lookup_lt_Some in Hi. exact Hi.
Qed.

(** C10 (amended). With more rows than a page and a stored page p beyond
    the table, (p-1)*K >= N, the slice is total and empty: the paginator
    shows a table of zero rows, then calls the page selector with index
    p-1, and raises exactly when that call does. *)
Theorem paginated_table_stale_page
    (df : frame) (label : string) (page_size p : Z) (s : state) :
  page_size < Z.of_nat (length df) ->
  session_state s !! (label ++ "_page")%string = Some p ->
  Z.of_nat (length df) <= (p - 1) * page_size ->
  let title := ("页码选择 - " ++ label)%string in
  let options := py_range 1 ((Z.of_nat (length df) - 1) / page_size + 1 + 1) in
  let key := (label ++ "_selector")%string in
  py_slice df ((p - 1) * page_size) ((p - 1) * page_size + page_size) = []
  /\ calls (snd (paginated_table df label page_size s))
     = (calls s ++ [Dataframe []; Selectbox title options (p - 1) key])%list
  /\ fst (paginated_table df label page_size s)
     = match fst (selectbox_value title options (p - 1) key (st_world s)) with
       | Ok _ => Ok tt
       | Raise e => Raise e
       end.
Proof.
  intros Hbig Hstored Hstale title options key.
  assert (Hnz : page_size <> 0) by (intros ->; lia).
  assert (Hempty : py_slice df ((p - 1) * page_size)
                     ((p - 1) * page_size + page_size) = [])
    by now apply py_slice_beyond.
  split; [exact Hempty|].
  rewrite (paginated_table_paged df label page_size s Hbig Hnz).
  rewrite Hstored, Hempty. fold title options key.
  destruct (selectbox_value title options (p - 1) key (st_world s)) as [[new_page|e] w];
    split; reflexivity.
Qed.

End PaginatorProofs.

(** ** Refresh loop *)

Section LoopProofs.
Context {B : Builtins} {R : Runtime}.

(** A request changes the world only. *)
Lemma signed_get_frame (endpoint api_key secret_key : string) (extra_params : option dict)
    (s s' : state) (r : result value) :
  signed_get endpoint api_key secret_key extra_params s = (r, s') ->
  session_state s' = session_state s /\ calls s' = calls s.
Proof.
  rewrite signed_get_run.
  destruct (time_ms (st_world s)) as [ts w1]. cbv beta iota zeta.
  destruct (requests_get _ _ w1) as [[resp|e] w2]; intros [= _ <-]; split; reflexivity.
Qed.

(** C5 (amended). The balance check of line 88 comes after the four
    requests of lines 83-86. When all four return and the account summary
    is an object without totalWalletBalance, the pass shows one error, made
    of the server's message (or of the whole object when it has no msg),
    and breaks out of the loop: no exception escapes and polling does not
    continue, whatever fuel is left. *)
Theorem cycle_missing_balance
    (api_key api_secret : string) (s s1 s2 s3 s4 : state)
    (d : dict) (positions open_orders trade_history : value) :
  get_account_info api_key api_secret (fresh_placeholder s) = (Ok (VDict d), s1) ->
  get_positions api_key api_secret s1 = (Ok positions, s2) ->
  get_open_orders api_key api_secret s2 = (Ok open_orders, s3) ->
  get_position_history api_key api_secret s3 = (Ok trade_history, s4) ->
  dict_get d "totalWalletBalance" = None ->
  let final := {| st_world := st_world s4;
                  session_state := session_state s;
                  calls := [Error ("账户信息错误: " ++ py_str (server_message d))%string] |} in
  cycle api_key api_secret s = (Break, final)
  /\ forall (fuel : nat) (refresh_interval : Z),
       poll (S fuel) api_key api_secret refresh_interval s = Some final.
Proof.
  intros H1 H2 H3 H4 Hmissing final.
  destruct (signed_get_frame _ _ _ _ _ _ _ H1) as [Hs1 Hc1].
  destruct (signed_get_frame _ _ _ _ _ _ _ H2) as [Hs2 Hc2].
  destruct (signed_get_frame _ _ _ _ _ _ _ H3) as [Hs3 Hc3].
  destruct (signed_get_frame _ _ _ _ _ _ _ H4) as [Hs4 Hc4].
  assert (Hcycle : cycle api_key api_secret s = (Break, final)).
  { unfold cycle, try_except, cycle_body. fold (fresh_placeholder s).
    unfold bind at 1. rewrite H1.
    unfold bind at 1. rewrite H2.
    unfold bind at 1. rewrite H3.
    unfold bind at 1. rewrite H4.
    unfold bind at 1. unfold lift at 1. cbn [py_contains].
    rewrite Hmissing. cbn [negb].
    unfold bind, lift, emit, ret. cbn [py_get st_world session_state calls].
    fold (server_message d). subst final.
    rewrite Hs4, Hs3, Hs2, Hs1, Hc4, Hc3, Hc2, Hc1. reflexivity. }
  split; [exact Hcycle|].
  intros fuel refresh_interval. cbn [poll]. now rewrite Hcycle.
Qed.

End LoopProofs.

(** ** Further properties of the API client *)

Lemma list_ascii_app (a b : string) :
  list_ascii_of_string (a ++ b)
  = (list_ascii_of_string a ++ list_ascii_of_string b)%list.
Proof.
  induction a as [|x a IH]; [reflexivity|].
  change (String x a ++ b)%string with (String x (a ++ b)).
  cbn [list_ascii_of_string app]. now rewrite IH.
Qed.

Lemma encode_byte_url_chars (c : ascii) :
  forallb url_char (Urllib.encode_byte c) = true.
Proof.
  unfold Urllib.encode_byte.
  destruct (Urllib.mem_char c Urllib.always_safe) eqn:Hsafe.
  - cbn [forallb]. unfold url_char. now rewrite Hsafe.
  - destruct (Ascii.eqb c " "); [reflexivity|].
    unfold Urllib.percent, Urllib.upper_hex. cbn [forallb].
    rewrite !(nth_digit_in (list_ascii_of_string "0123456789ABCDEF") _ url_char
                eq_refl eq_refl).
    reflexivity.
Qed.

Lemma encode_component_url_chars (s : string) :
  forallb url_char (list_ascii_of_string (Urllib.encode_component s)) = true.
Proof.
  unfold Urllib.encode_component. rewrite list_ascii_of_string_of_list_ascii.
  induction (list_ascii_of_string s) as [|c l IH]; [reflexivity|].
  cbn [map concat]. rewrite forallb_app, encode_byte_url_chars. exact IH.
Qed.

Lemma join_url_chars (l : list string) :
  Forall (fun x => forallb url_char (list_ascii_of_string x) = true) l ->
  forallb url_char (list_ascii_of_string (Urllib.join "&" l)) = true.
Proof.
  induction 1 as [|x l Hx Hl IH]; [reflexivity|].
  destruct l as [|y l]; [exact Hx|].
  change (Urllib.join "&" (x :: y :: l))
    with (x ++ "&" ++ Urllib.join "&" (y :: l))%string.
  rewrite !list_ascii_app, !forallb_app, Hx, IH. reflexivity.
Qed.

Lemma hex_value_upper_hex (d : Z) :
  hex_value (Urllib.upper_hex d) = Some (d mod 16).
Proof.
  unfold Urllib.upper_hex.
  pose proof (Z.mod_pos_bound d 16 eq_refl) as Hb.
  rewrite <- (Z2Nat.id (d mod 16)) at 2 by lia.
  assert (Hn : (Z.to_nat (d mod 16) < 16)%nat) by lia.
  revert Hn. generalize (Z.to_nat (d mod 16)). intros n Hn.
  do 16 (destruct n as [|n]; [reflexivity|]). lia.
Qed.

Lemma safe_not_percent_plus (c : ascii) :
  Urllib.mem_char c Urllib.always_safe = true ->
  Ascii.eqb c "%" = false /\ Ascii.eqb c "+" = false.
Proof.
  intros H. split.
  - destruct (Ascii.eqb_spec c "%") as [->|]; [vm_compute in H; discriminate | reflexivity].
  - destruct (Ascii.eqb_spec c "+") as [->|]; [vm_compute in H; discriminate | reflexivity].
Qed.

Lemma byte_of_nibbles (c : ascii) :
  let b := Z.of_N (N_of_ascii c) in
  ascii_of_N (Z.to_N (16 * ((b / 16) mod 16) + b mod 16)) = c.
Proof.
  intros b. pose proof (N_ascii_bounded c) as Hc.
  assert (Hb : 0 <= b < 256) by (subst b; lia).
  replace (16 * ((b / 16) mod 16) + b mod 16) with b.
  - subst b. rewrite N2Z.id. apply ascii_N_embedding.
  - rewrite (Z.mod_small (b / 16) 16).
    + pose proof (Z.div_mod b 16 ltac:(lia)). lia.
    + split; [apply Z.div_pos; lia | apply Z.div_lt_upper_bound; lia].
Qed.

Lemma unquote_encode_bytes (l : list ascii) :
  unquote_chars (concat (map Urllib.encode_byte l)) = Some l.
Proof.
  induction l as [|c l IH]; [reflexivity|].
  cbn [map concat]. unfold Urllib.encode_byte at 1.
  destruct (Urllib.mem_char c Urllib.always_safe) eqn:Hsafe.
  - destruct (safe_not_percent_plus c Hsafe) as [Hp Hq].
    cbn [app unquote_chars]. now rewrite Hp, Hq, IH.
  - destruct (Ascii.eqb_spec c " ") as [->|Hsp].
    + cbn [app unquote_chars]. rewrite IH. reflexivity.
    + unfold Urllib.percent. cbn [app unquote_chars].
      change (Ascii.eqb "%" "%") with true. cbv iota.
      rewrite !hex_value_upper_hex, IH. cbn [option_map].
      now rewrite (byte_of_nibbles c).
Qed.

Section ClientExtras.
Context {B : Builtins} {R : Runtime}.

Lemma signed_get_finish (endpoint api_key secret_key : string)
    (extra_params : option dict) (s : state) (ts : Z) (w1 : world) :
  time_ms (st_world s) = (ts, w1) ->
  signed_get endpoint api_key secret_key extra_params s
  = finish_request s
      (requests_get (signed_get_url endpoint (signed_get_params ts secret_key extra_params))
                    (get_headers api_key) w1).
Proof.
  intros Ht. rewrite signed_get_run, Ht. cbv beta iota zeta.
  unfold finish_request. destruct (requests_get _ _ w1) as [[resp|e] w2]; reflexivity.
Qed.

(** X1. requests.get sits outside the try block: an exception it raises
    leaves signed_get as it is, with no fallback object made of it. *)
Theorem signed_get_transport_error
    (endpoint api_key secret_key : string) (extra_params : option dict)
    (s : state) (ts : Z) (w1 w2 : world) (e : exn) :
  time_ms (st_world s) = (ts, w1) ->
  requests_get (signed_get_url endpoint (signed_get_params ts secret_key extra_params))
               (get_headers api_key) w1 = (Raise e, w2) ->
  signed_get endpoint api_key secret_key extra_params s
  = (Raise e, {| st_world := w2; session_state := session_state s; calls := calls s |}).
Proof.
  intros Ht Hget. rewrite (signed_get_finish _ _ _ _ _ _ _ Ht), Hget. reflexivity.
Qed.

(** X2. A request never draws on the page and never touches the stored page
    numbers, whether it returns or raises. *)
Theorem signed_get_touches_only_world
    (endpoint api_key secret_key : string) (extra_params : option dict) (s : state) :
  session_state (snd (signed_get endpoint api_key secret_key extra_params s))
  = session_state s
  /\ calls (snd (signed_get endpoint api_key secret_key extra_params s)) = calls s.
Proof.
  destruct (signed_get endpoint api_key secret_key extra_params s) as [r s'] eqn:Hrun.
  exact (signed_get_frame _ _ _ _ _ _ _ Hrun).
Qed.

Lemma plain_params (ts : Z) (secret_key : string) :
  signed_get_params ts secret_key None
  = [("timestamp", VInt ts);
     ("signature", VStr (sign_request [("timestamp", VInt ts)] secret_key))].
Proof. reflexivity. Qed.

Lemma trade_params (ts : Z) (secret_key : string) :
  signed_get_params ts secret_key (Some [("limit", VInt 50)])
  = [("timestamp", VInt ts); ("limit", VInt 50);
     ("signature",
      VStr (sign_request [("timestamp", VInt ts); ("limit", VInt 50)] secret_key))].
Proof. reflexivity. Qed.

Lemma quote_plus_int (z : Z) : Urllib.quote_plus (int_str z) = int_str z.
Proof. rewrite quote_plus_encode. apply encode_component_safe, int_str_safe. Qed.

Lemma quote_plus_signature (params : dict) (secret_key : string) :
  Urllib.quote_plus (sign_request params secret_key) = sign_request params secret_key.
Proof. rewrite quote_plus_encode. apply encode_component_safe, sign_request_safe. Qed.

Lemma plain_query (ts : Z) (secret_key : string) :
  let query := ("timestamp=" ++ int_str ts)%string in
  urlencode (signed_get_params ts secret_key None)
  = (query ++ "&signature="
     ++ hex (Hmac.hmac_sha256 (encode_utf8 secret_key) (encode_utf8 query)))%string.
Proof.
  intros query. rewrite plain_params.
  assert (Hsig : sign_request [("timestamp", VInt ts)] secret_key
                 = hex (Hmac.hmac_sha256 (encode_utf8 secret_key) (encode_utf8 query))).
  { rewrite sign_request_rfc. unfold canonical_query. cbn [map fst snd py_str py_repr].
    rewrite (encode_component_safe (int_str ts)) by apply int_str_safe. reflexivity. }
  unfold urlencode. cbn [map fst snd py_str py_repr Urllib.join].
  rewrite quote_plus_int, quote_plus_signature, Hsig.
  subst query. now rewrite !append_assoc.
Qed.

Lemma trade_query (ts : Z) (secret_key : string) :
  let query := ("timestamp=" ++ int_str ts ++ "&limit=50")%string in
  urlencode (signed_get_params ts secret_key (Some [("limit", VInt 50)]))
  = (query ++ "&signature="
     ++ hex (Hmac.hmac_sha256 (encode_utf8 secret_key) (encode_utf8 query)))%string.
Proof.
  intros query. rewrite trade_params.
  assert (Hsig : sign_request [("timestamp", VInt ts); ("limit", VInt 50)] secret_key
                 = hex (Hmac.hmac_sha256 (encode_utf8 secret_key) (encode_utf8 query))).
  { rewrite sign_request_rfc. unfold canonical_query.
    cbn [map fst snd py_str py_repr Urllib.join].
    rewrite (encode_component_safe (int_str ts)) by apply int_str_safe.
    subst query. now rewrite !append_assoc. }
  unfold urlencode. cbn [map fst snd py_str py_repr Urllib.join].
  rewrite quote_plus_int, quote_plus_signature, Hsig.
  subst query. now rewrite !append_assoc.
Qed.

(** X3. The account, position and open-order calls each request
    <host><path>?timestamp=<ms>&signature=<hex>, where the signature is the
    HMAC-SHA256 of "timestamp=<ms>" under the secret, and send the API key
    in the X-MBX-APIKEY header and nowhere else. *)
Theorem plain_requests_url (api_key secret_key : string) (s : state) (ts : Z) (w1 : world) :
  time_ms (st_world s) = (ts, w1) ->
  let query := ("timestamp=" ++ int_str ts)%string in
  let tail := ("?" ++ query ++ "&signature="
               ++ hex (Hmac.hmac_sha256 (encode_utf8 secret_key) (encode_utf8 query)))%string in
  get_account_info api_key secret_key s
  = finish_request s
      (requests_get ("https://fapi.binance.com" ++ "/fapi/v2/account" ++ tail)%string
                    [("X-MBX-APIKEY", api_key)] w1)
  /\ get_positions api_key secret_key s
     = finish_request s
         (requests_get ("https://fapi.binance.com" ++ "/fapi/v2/positionRisk" ++ tail)%string
                       [("X-MBX-APIKEY", api_key)] w1)
  /\ get_open_orders api_key secret_key s
     = finish_request s
         (requests_get ("https://fapi.binance.com" ++ "/fapi/v1/openOrders" ++ tail)%string
                       [("X-MBX-APIKEY", api_key)] w1).
Proof.
  intros Ht query tail.
  unfold get_account_info, get_positions, get_open_orders.
  rewrite !(signed_get_finish _ _ _ _ _ _ _ Ht).
  unfold signed_get_url. rewrite (plain_query ts secret_key).
  repeat split.
Qed.

(** X4. The trade-history call requests
    <host>/fapi/v1/userTrades?timestamp=<ms>&limit=50&signature=<hex>, the
    signature being the HMAC-SHA256 of "timestamp=<ms>&limit=50". *)
Theorem trade_history_url (api_key secret_key : string) (s : state) (ts : Z) (w1 : world) :
  time_ms (st_world s) = (ts, w1) ->
  let query := ("timestamp=" ++ int_str ts ++ "&limit=50")%string in
  get_position_history api_key secret_key s
  = finish_request s
      (requests_get
         ("https://fapi.binance.com" ++ "/fapi/v1/userTrades" ++ "?" ++ query
          ++ "&signature="
          ++ hex (Hmac.hmac_sha256 (encode_utf8 secret_key) (encode_utf8 query)))%string
         [("X-MBX-APIKEY", api_key)] w1).
Proof.
  intros Ht query. unfold get_position_history.
  rewrite (signed_get_finish _ _ _ _ _ _ _ Ht).
  unfold signed_get_url. rewrite (trade_query ts secret_key). reflexivity.
Qed.

(** X5. Whatever the parameters, the query string urlencode builds is made
    of unreserved characters and of %, +, = and & only. *)
Theorem urlencode_url_chars (params : dict) :
  forallb url_char (list_ascii_of_string (urlencode params)) = true.
Proof.
  rewrite urlencode_canonical. unfold canonical_query.
  apply join_url_chars, List.Forall_forall. intros x Hx.
  apply in_map_iff in Hx as ([k v] & <- & _). cbn [fst snd].
  rewrite !list_ascii_app, !forallb_app, !encode_component_url_chars. reflexivity.
Qed.

End ClientExtras.

(** X6. quote_plus loses nothing: decoding its output gives the string
    back, so two different strings never have the same encoding. *)
Theorem quote_plus_round_trip :
  (forall s, unquote_plus (Urllib.quote_plus s) = Some s)
  /\ (forall s1 s2, Urllib.quote_plus s1 = Urllib.quote_plus s2 -> s1 = s2).
Proof.
  assert (Hback : forall s, unquote_plus (Urllib.quote_plus s) = Some s).
  { intros s. rewrite quote_plus_encode. unfold unquote_plus, Urllib.encode_component.
    rewrite list_ascii_of_string_of_list_ascii, unquote_encode_bytes.
    cbn [option_map]. now rewrite string_of_list_ascii_of_string. }
  split; [exact Hback|].
  intros s1 s2 Heq. pose proof (Hback s1) as H1. rewrite Heq, Hback in H1.
  now injection H1.
Qed.

(** ** Further properties of the paginator *)

Lemma py_slice_chunk {A} (l : list A) (start len : Z) :
  0 <= start -> 0 <= len ->
  py_slice l start (start + len) = take (Z.to_nat len) (drop (Z.to_nat start) l).
Proof.
  intros Hs Hl. unfold py_slice. rewrite !slice_index_nonneg by lia.
  destruct (Z.le_gt_cases (Z.of_nat (length l)) start) as [Hout|Hin].
  - rewrite (drop_ge l (Z.to_nat start)) by lia.
    rewrite (drop_ge l (Z.to_nat (Z.min start (Z.of_nat (length l))))) by lia.
    now rewrite !take_nil.
  - replace (Z.to_nat (Z.min start (Z.of_nat (length l)))) with (Z.to_nat start) by lia.
    destruct (Z.le_gt_cases (start + len) (Z.of_nat (length l))) as [Hfit|Hcut].
    + f_equal. lia.
    + rewrite !take_ge by (rewrite length_drop; lia). reflexivity.
Qed.

Lemma chunks_concat {A} (k m : nat) (l : list A) :
  (length l <= m * k)%nat ->
  concat (map (fun i => take k (drop (i * k) l)) (seq 0 m)) = l.
Proof.
  revert l. induction m as [|m IH]; intros l Hlen.
  - destruct l; [reflexivity | simpl in Hlen; lia].
  - cbn [seq map concat]. rewrite <- seq_shift, map_map.
    rewrite (map_ext _ (fun i => take k (drop (i * k) (drop k l)))).
    + rewrite IH by (rewrite length_drop; lia). apply take_drop.
    + intros i. now rewrite drop_drop.
Qed.

Lemma py_slice_length_exact {A} (l : list A) (start len : Z) :
  0 <= start -> 0 <= len ->
  Z.of_nat (length (py_slice l start (start + len)))
  = Z.max 0 (Z.min len (Z.of_nat (length l) - start)).
Proof.
  intros Hs Hl. rewrite py_slice_chunk by assumption.
  rewrite length_take, length_drop. lia.
Qed.

Section PaginatorExtras.
Context {B : Builtins} {R : Runtime}.

(** X7. A page size of 0 with a table that has rows divides by zero: the
    paginator raises ZeroDivisionError before anything is shown or stored. *)
Theorem paginated_table_zero_page_size (df : frame) (label : string) (s : state) :
  df <> [] ->
  paginated_table df label 0 s = (Raise ZeroDivisionError, s).
Proof.
  intros Hrows. unfold paginated_table.
  destruct (Z.leb_spec (Z.of_nat (length df)) 0) as [Hle|_].
  - destruct df; [contradiction | simpl in Hle; lia].
  - reflexivity.
Qed.

Lemma first_call_of_page (df : frame) (label : string) (page_size p : Z) (s : state) :
  page_size < Z.of_nat (length df) ->
  page_size <> 0 ->
  session_state s !! (label ++ "_page")%string = Some p ->
  calls (snd (paginated_table df label page_size s)) !! length (calls s)
  = Some (Dataframe (visible_rows df page_size p)).
Proof.
  intros Hbig Hnz Hstored.
  rewrite (paginated_table_paged df label page_size s Hbig Hnz), Hstored.
  fold (visible_rows df page_size p).
  destruct (selectbox_value _ _ _ _ _) as [[new_page|e] w]; cbn [snd calls];
    rewrite lookup_app_r by lia; now rewrite Nat.sub_diag.
Qed.

(** X8. With a positive page size K the pages on offer split the table:
    the rows shown for pages 1, 2, ..., ceil(N/K), put end to end, are the
    table itself, each row once and in order. *)
Theorem pages_partition (df : frame) (label : string) (page_size : Z) :
  0 < page_size ->
  concat (map (visible_rows df page_size)
              (py_range 1 (ceil_div (Z.of_nat (length df)) page_size + 1))) = df
  /\ (forall (s : state) (p : Z),
        page_size < Z.of_nat (length df) ->
        session_state s !! (label ++ "_page")%string = Some p ->
        calls (snd (paginated_table df label page_size s)) !! length (calls s)
        = Some (Dataframe (visible_rows df page_size p))).
Proof.
  intros Hk. split.
  - pose proof (ceil_div_bounds (Z.of_nat (length df)) page_size Hk) as Hc.
    unfold py_range. rewrite map_map.
    replace (Z.to_nat (ceil_div (Z.of_nat (length df)) page_size + 1 - 1))
      with (Z.to_nat (ceil_div (Z.of_nat (length df)) page_size)) by lia.
    rewrite (map_ext _ (fun i => take (Z.to_nat page_size)
                                   (drop (i * Z.to_nat page_size) df))).
    + apply chunks_concat. nia.
    + intros i. unfold visible_rows.
      rewrite py_slice_chunk by nia. do 2 f_equal. nia.
  - intros s p Hbig Hstored. apply first_call_of_page; [assumption | lia | assumption].
Qed.

(** X9. With a positive page size K every page on offer has rows: pages
    before the last have exactly K, the last has the N - (pages-1)*K that
    remain, between 1 and K. *)
Theorem offered_pages_filled (df : frame) (page_size p : Z) :
  0 < page_size ->
  let total := Z.of_nat (length df) in
  let pages := ceil_div total page_size in
  1 <= p <= pages ->
  let shown := Z.of_nat (length (visible_rows df page_size p)) in
  1 <= shown <= page_size
  /\ (p < pages -> shown = page_size)
  /\ (p = pages -> shown = total - (pages - 1) * page_size).
Proof.
  intros Hk total pages Hp shown.
  pose proof (ceil_div_bounds total page_size Hk) as Hc. fold pages in Hc.
  assert (Hshown : shown = Z.max 0 (Z.min page_size (total - (p - 1) * page_size))).
  { subst shown. unfold visible_rows. apply py_slice_length_exact; nia. }
  rewrite Hshown. repeat split; try intros; nia.
Qed.

(** X10. The page the selector gives back is stored in st.session_state
    under the table's page key, and under the selector's own widget key,
    where Streamlit keeps the value of a keyed widget; no key other than
    these two changes; the next time the same table is shown, that is the
    page whose rows appear. *)
Theorem selection_is_kept
    (df df' : frame) (label : string) (page_size v : Z) (s : state) (w : world) :
  page_size < Z.of_nat (length df) ->
  page_size < Z.of_nat (length df') ->
  page_size <> 0 ->
  let page := match session_state s !! (label ++ "_page")%string with
              | Some p => p
              | None => 1
              end in
  selectbox_value ("页码选择 - " ++ label)%string
    (py_range 1 ((Z.of_nat (length df) - 1) / page_size + 1 + 1))
    (page - 1) (label ++ "_selector")%string (st_world s) = (Ok v, w) ->
  let s' := snd (paginated_table df label page_size s) in
  session_state s' !! (label ++ "_page")%string = Some v
  /\ session_state s' !! (label ++ "_selector")%string = Some v
  /\ (forall k, k <> (label ++ "_page")%string ->
                k <> (label ++ "_selector")%string ->
                session_state s' !! k = session_state s !! k)
  /\ calls (snd (paginated_table df' label page_size s')) !! length (calls s')
     = Some (Dataframe (visible_rows df' page_size v)).
Proof.
  intros Hbig Hbig' Hnz page Hpick s'.
  assert (Hs' : session_state s'
                = <[(label ++ "_page")%string := v]>
                    (<[(label ++ "_selector")%string := v]> (session_state s))).
  { subst s'. rewrite (paginated_table_paged df label page_size s Hbig Hnz).
    fold page. rewrite Hpick. reflexivity. }
  assert (Hv : session_state s' !! (label ++ "_page")%string = Some v)
    by (rewrite Hs'; apply lookup_insert_eq).
  split; [exact Hv|]. split; [|split].
  - rewrite Hs'. destruct (decide ((label ++ "_page")%string = (label ++ "_selector")%string))
      as [Heq|Hne].
    + rewrite <- Heq. apply lookup_insert_eq.
    + rewrite lookup_insert_ne by exact Hne. apply lookup_insert_eq.
  - intros k Hk Hk'. rewrite Hs'.
    rewrite lookup_insert_ne by (intros E; apply Hk; now symmetry).
    apply lookup_insert_ne. intros E; apply Hk'; now symmetry.
  - now apply first_call_of_page.
Qed.

End PaginatorExtras.

(** ** Further properties of the presenter *)

Section PresenterExtras.
Context {B : Builtins} {R : Runtime}.

(** X11. The position filter stops at the first entry whose amount is
    missing or does not convert, with that entry's exception, whatever the
    entries after it are. *)
Theorem active_positions_first_failure
    (good rest : list value) (bad : value) (e : exn) :
  Forall (fun p => is_ok (position_amount p) = true) good ->
  position_amount bad = Raise e ->
  active_positions (good ++ bad :: rest)%list = Raise e.
Proof.
  intros Hgood Hbad. induction Hgood as [|p good Hp _ IH].
  - cbn [app]. rewrite active_positions_cons, Hbad. reflexivity.
  - cbn [app]. rewrite active_positions_cons, IH.
    destruct (position_amount p); [reflexivity | discriminate].
Qed.

(** X12. The position filter returns a list exactly when every entry's
    amount converts, and the list is then the entries with a non-zero
    amount: there is no partial result. *)
Theorem active_positions_ok_iff (positions kept : list value) :
  active_positions positions = Ok kept
  <-> Forall (fun p => is_ok (position_amount p) = true) positions
      /\ kept = List.filter nonzero_amount positions.
Proof.
  revert kept. induction positions as [|p rest IH]; intros kept.
  - cbn. split; [intros [= <-]; split; [constructor | reflexivity] | intros [_ ->]; reflexivity].
  - rewrite active_positions_cons. cbn [List.filter]. unfold nonzero_amount at 1.
    destruct (position_amount p) as [x|e] eqn:Hp; cbn [result_bind].
    + destruct (active_positions rest) as [kept'|e'] eqn:Hrest; cbn [result_bind].
      * destruct (proj1 (IH kept') eq_refl) as [Hall ->].
        split.
        -- intros [= <-]. split; [|reflexivity].
           constructor; [now rewrite Hp | exact Hall].
        -- intros [_ ->]. reflexivity.
      * split; [discriminate|]. intros [Hall _].
        apply Forall_inv_tail in Hall.
        pose proof (proj2 (IH _) (conj Hall eq_refl)) as Habs. discriminate Habs.
    + split; [discriminate|]. intros [Hall _].
      apply Forall_inv in Hall. rewrite Hp in Hall. discriminate Hall.
Qed.

Lemma process_order_dict (d : dict) :
  process_order (VDict d)
  = result_bind (type_label (order_field d "type")) (fun label =>
      result_bind (fromtimestamp_str (order_time d)) (fun placed =>
        Ok (order_row d label placed))).
Proof. reflexivity. Qed.

(** X13. What becomes of one order: an order that is not an object has no
    get and raises AttributeError; an object whose type is a list or an
    object cannot be looked up and raises TypeError; otherwise the order
    gives its eight cells, fields it lacks showing as the empty string,
    unless formatting its time raises. *)
Theorem process_order_cases :
  (forall order, (forall d, order <> VDict d) -> process_order order = Raise AttributeError)
  /\ (forall d, (exists l, order_field d "type" = VList l)
                 \/ (exists o, order_field d "type" = VDict o) ->
                process_order (VDict d) = Raise TypeError)
  /\ (forall d, (forall l, order_field d "type" <> VList l) ->
                (forall o, order_field d "type" <> VDict o) ->
                exists label,
                  type_label (order_field d "type") = Ok label
                  /\ process_order (VDict d)
                     = match fromtimestamp_str (order_time d) with
                       | Ok placed => Ok (order_row d label placed)
                       | Raise e => Raise e
                       end).
Proof.
  split; [|split].
  - intros order Hnot. destruct order; try reflexivity. now destruct (Hnot d).
  - intros d [[l Ht]|[o Ht]]; rewrite process_order_dict, Ht; reflexivity.
  - intros d Hl Ho. rewrite process_order_dict.
    destruct (order_field d "type") as [| | | | |l|o] eqn:Ht;
      try (eexists; split; [reflexivity|]; cbn [result_bind];
           destruct (fromtimestamp_str (order_time d)); reflexivity).
    + now destruct (Hl l).
    + now destruct (Ho o).
Qed.

(** X14. The order table has one row per order, in the orders' order, and
    exists only when every order converts: the first order that raises
    leaves no table at all. *)
Theorem process_orders_rows (orders : list value) (rows : frame) :
  process_orders orders = Ok rows
  <-> Forall2 (fun order r => process_order order = Ok r) orders rows.
Proof.
  revert rows. induction orders as [|order rest IH]; intros rows.
  - cbn. split; [intros [= <-]; constructor | intros H; inversion H; reflexivity].
  - cbn [process_orders].
    destruct (process_order order) as [r|e] eqn:Ho; cbn [result_bind].
    + destruct (process_orders rest) as [rs|e'] eqn:Hrest; cbn [result_bind].
      * split.
        -- intros [= <-]. constructor; [exact Ho | now apply IH].
        -- intros H. inversion H as [|? r' ? rs' Hr Hrs]; subst.
           apply IH in Hrs. injection Hrs as ->.
           rewrite Hr in Ho. injection Ho as ->. reflexivity.
      * split; [discriminate|]. intros H.
        inversion H as [|? r' ? rs' Hr Hrs]; subst.
        apply IH in Hrs. discriminate Hrs.
    + split; [discriminate|]. intros H.
      inversion H as [|? r' ? rs' Hr Hrs]; subst. rewrite Hr in Ho. discriminate Ho.
Qed.

End PresenterExtras.

(** ** Further properties of the refresh loop *)

Section LoopExtras.
Context {B : Builtins} {R : Runtime}.

Lemma bind_ok {A C} (m : M A) (k : A -> M C) (s s' : state) (c : C) :
  bind m k s = (Ok c, s') ->
  exists a s1, m s = (Ok a, s1) /\ k a s1 = (Ok c, s').
Proof.
  unfold bind. destruct (m s) as [[a|e] s1]; [eauto | discriminate].
Qed.

Lemma fetch_all_ok (api_key api_secret : string) (s0 s4 : state)
    (a p o t : value) :
  fetch_all api_key api_secret s0 = (Ok (a, p, o, t), s4) ->
  exists s1 s2 s3,
    get_account_info api_key api_secret s0 = (Ok a, s1)
    /\ get_positions api_key api_secret s1 = (Ok p, s2)
    /\ get_open_orders api_key api_secret s2 = (Ok o, s3)
    /\ get_position_history api_key api_secret s3 = (Ok t, s4).
Proof.
  unfold fetch_all. intros H.
  apply bind_ok in H as (a' & s1 & H1 & H).
  apply bind_ok in H as (p' & s2 & H2 & H).
  apply bind_ok in H as (o' & s3 & H3 & H).
  apply bind_ok in H as (t' & s4' & H4 & H).
  unfold ret in H. injection H as -> -> -> -> ->. eauto 8.
Qed.

Lemma fetch_all_frame (api_key api_secret : string) (s s' : state)
    (r : result (value * value * value * value)) :
  fetch_all api_key api_secret s = (r, s') ->
  session_state s' = session_state s /\ calls s' = calls s.
Proof.
  unfold fetch_all, bind, ret, get_account_info, get_positions, get_open_orders,
    get_position_history.
  destruct (signed_get "/fapi/v2/account" _ _ _ s) as [[a|e] s1] eqn:H1;
    apply signed_get_frame in H1 as [Hs1 Hc1];
    [|intros [= _ <-]; split; assumption].
  destruct (signed_get "/fapi/v2/positionRisk" _ _ _ s1) as [[p|e] s2] eqn:H2;
    apply signed_get_frame in H2 as [Hs2 Hc2];
    [|intros [= _ <-]; split; congruence].
  destruct (signed_get "/fapi/v1/openOrders" _ _ _ s2) as [[o|e] s3] eqn:H3;
    apply signed_get_frame in H3 as [Hs3 Hc3];
    [|intros [= _ <-]; split; congruence].
  destruct (signed_get "/fapi/v1/userTrades" _ _ _ s3) as [[t|e] s4] eqn:H4;
    apply signed_get_frame in H4 as [Hs4 Hc4];
    intros [= _ <-]; split; congruence.
Qed.

Lemma cycle_body_fetch_raise (api_key api_secret : string) (s0 s1 : state) (e : exn) :
  fetch_all api_key api_secret s0 = (Raise e, s1) ->
  cycle_body api_key api_secret s0 = (Raise e, s1).
Proof.
  unfold fetch_all, cycle_body, bind, ret.
  destruct (get_account_info api_key api_secret s0) as [[a|ea] sa]; [|intros [= -> ->]; reflexivity].
  destruct (get_positions api_key api_secret sa) as [[p|ep] sp]; [|intros [= -> ->]; reflexivity].
  destruct (get_open_orders api_key api_secret sp) as [[o|eo] so]; [|intros [= -> ->]; reflexivity].
  destruct (get_position_history api_key api_secret so) as [[t|et] st]; [|intros [= -> ->]; reflexivity].
  discriminate.
Qed.

(** A pass whose body raises shows the generic error and breaks. *)
Lemma cycle_of_raise (api_key api_secret : string) (s s1 : state) (e : exn) :
  cycle_body api_key api_secret (fresh_placeholder s) = (Raise e, s1) ->
  cycle api_key api_secret s
  = (Break, {| st_world := st_world s1;
               session_state := session_state s1;
               calls := (calls s1 ++ [generic_error e])%list |}).
Proof.
  intros Hbody. unfold cycle, try_except. fold (fresh_placeholder s).
  rewrite Hbody. reflexivity.
Qed.

(** X15. If any of the four requests of a pass raises, the pass shows only
    the generic error with the exception's text and ends the loop; requests
    after the failing one are not made, and the account summary is not
    looked at even if it had come back. *)
Theorem cycle_fetch_failure
    (api_key api_secret : string) (s s1 : state) (e : exn) :
  fetch_all api_key api_secret (fresh_placeholder s) = (Raise e, s1) ->
  let final := {| st_world := st_world s1;
                  session_state := session_state s;
                  calls := [generic_error e] |} in
  cycle api_key api_secret s = (Break, final)
  /\ forall (fuel : nat) (refresh_interval : Z),
       poll (S fuel) api_key api_secret refresh_interval s = Some final.
Proof.
  intros Hfetch final.
  destruct (fetch_all_frame _ _ _ _ _ Hfetch) as [Hs Hc].
  assert (Hcycle : cycle api_key api_secret s = (Break, final)).
  { rewrite (cycle_of_raise _ _ _ _ _ (cycle_body_fetch_raise _ _ _ _ _ Hfetch)).
    subst final. rewrite Hs, Hc. reflexivity. }
  split; [exact Hcycle|]. intros fuel refresh_interval.
  cbn [poll]. now rewrite Hcycle.
Qed.

(** X16. When the account summary that came back is not an object (a list,
    a string, a number, null), the pass ends in the generic error, for a
    TypeError or an AttributeError, and the loop ends. *)
Theorem cycle_account_not_object
    (api_key api_secret : string) (s s4 : state) (a p o t : value) :
  fetch_all api_key api_secret (fresh_placeholder s) = (Ok (a, p, o, t), s4) ->
  (forall d, a <> VDict d) ->
  exists e,
    (e = TypeError \/ e = AttributeError)
    /\ cycle api_key api_secret s
       = (Break, {| st_world := st_world s4;
                    session_state := session_state s;
                    calls := [generic_error e] |}).
Proof.
  intros Hfetch Hnot.
  destruct (fetch_all_frame _ _ _ _ _ Hfetch) as [Hs Hc].
  destruct (fetch_all_ok _ _ _ _ _ _ _ _ Hfetch) as (s1 & s2 & s3 & H1 & H2 & H3 & H4).
  assert (Hbody : exists e, (e = TypeError \/ e = AttributeError)
                            /\ cycle_body api_key api_secret (fresh_placeholder s)
                               = (Raise e, s4)).
  { unfold cycle_body.
    unfold bind at 1. rewrite H1. unfold bind at 1. rewrite H2.
    unfold bind at 1. rewrite H3. unfold bind at 1. rewrite H4.
    destruct a as [|b|z|x|str|l|d]; try (now destruct (Hnot d));
      try (exists TypeError; split; [now left | reflexivity]).
    - unfold bind at 1, lift at 1. cbn [py_contains].
      destruct (is_substring "totalWalletBalance" str);
        [exists TypeError | exists AttributeError]; split; auto.
    - unfold bind at 1, lift at 1. cbn [py_contains].
      destruct (existsb _ l);
        [exists TypeError | exists AttributeError]; split; auto. }
  destruct Hbody as (e & He & Hbody). exists e. split; [exact He|].
  rewrite (cycle_of_raise _ _ _ _ _ Hbody), Hs, Hc. reflexivity.
Qed.

(** X20. Nothing is requested until both credentials are there: with an
    empty API key or secret the page only shows the warning and the world
    is left as it was; with both present the page polls. *)
Theorem main_needs_credentials
    (fuel : nat) (api_key api_secret : string) (refresh_interval : Z) (s : state) :
  (api_key = "" \/ api_secret = "" ->
   main fuel api_key api_secret refresh_interval s
   = Some {| st_world := st_world s;
             session_state := session_state s;
             calls := (calls s ++ [Warning "请在左侧输入 API Key 和 Secret Key 后开始"])%list |})
  /\ (api_key <> "" -> api_secret <> "" ->
      main fuel api_key api_secret refresh_interval s
      = poll fuel api_key api_secret refresh_interval s).
Proof.
  unfold main. split.
  - intros [-> | ->]; [reflexivity|].
    destruct (String.eqb api_key ""); reflexivity.
  - intros Hk Hs.
    apply String.eqb_neq in Hk, Hs. now rewrite Hk, Hs.
Qed.

Lemma bind_lift {A C} (r : result A) (a : A) (k : A -> M C) (s : state) :
  r = Ok a -> bind (lift r) k s = k a s.
Proof. now intros ->. Qed.

Lemma bind_emit {C} (c : call) (k : unit -> M C)
    (w : world) (pages : gmap string Z) (shown : list call) :
  bind (emit c) k {| st_world := w; session_state := pages; calls := shown |}
  = k tt {| st_world := w; session_state := pages; calls := (shown ++ [c])%list |}.
Proof. reflexivity. Qed.

Lemma quiet_branch {T} (v : value) (big : value -> list value -> T) (small : T) :
  is_nonempty_list v = false ->
  match v with
  | VList (x :: xs) => big x xs
  | _ => small
  end = small.
Proof. destruct v as [| | | | |[|x xs]|]; try reflexivity. discriminate. Qed.

(** X17. A pass over an account with nothing in it: when the summary has
    its three balances, no position has a non-zero amount, and the open
    orders and the trades are not non-empty lists, the pass shows the three
    metrics to two places, the three "nothing here" notes and the refresh
    stamp, stores nothing, and the loop goes on. *)
Theorem cycle_quiet
    (api_key api_secret : string) (s s4 : state) (d : dict) (p o t : value)
    (x1 x2 x3 : float) :
  fetch_all api_key api_secret (fresh_placeholder s) = (Ok (VDict d, p, o, t), s4) ->
  balance d "totalWalletBalance" = Ok x1 ->
  balance d "totalUnrealizedProfit" = Ok x2 ->
  balance d "totalMarginBalance" = Ok x3 ->
  shown_positions p = Ok [] ->
  is_nonempty_list o = false ->
  is_nonempty_list t = false ->
  cycle api_key api_secret s
  = (Continue,
     {| st_world := st_world s4;
        session_state := session_state s;
        calls := [ Markdown "### 💼 当前账户汇总";
                   Metric "钱包余额" (float_fixed 2 x1 ++ " USDT");
                   Metric "未实现盈亏" (float_fixed 2 x2 ++ " USDT");
                   Metric "保证金余额" (float_fixed 2 x3 ++ " USDT");
                   Markdown "### 📈 当前持仓";
                   Info "无当前持仓";
                   Markdown "### 📋 当前委托订单（含中文触发条件）";
                   Info "无当前委托";
                   Markdown "### 🕒 最近成交记录（仓位历史）";
                   Info "无成交记录";
                   refresh_stamp (st_world s4) ] |}).
Proof.
  intros Hfetch Hb1 Hb2 Hb3 Hpos Ho Ht.
  destruct (fetch_all_frame _ _ _ _ _ Hfetch) as [Hs Hc].
  destruct (fetch_all_ok _ _ _ _ _ _ _ _ Hfetch) as (s1 & s2 & s3 & H1 & H2 & H3 & H4).
  assert (Hpresent : py_contains (VDict d) "totalWalletBalance" = Ok true).
  { unfold balance, py_getitem in Hb1. cbn [py_contains].
    destruct (dict_get d "totalWalletBalance"); [reflexivity | discriminate]. }
  unfold cycle, try_except, cycle_body. fold (fresh_placeholder s).
  unfold bind at 1. rewrite H1. unfold bind at 1. rewrite H2.
  unfold bind at 1. rewrite H3. unfold bind at 1. rewrite H4.
  destruct s4 as [w4 pages4 shown4]. cbn [session_state calls fresh_placeholder] in Hs, Hc.
  subst pages4 shown4. cbn [st_world].
  rewrite (bind_lift _ true _ _ Hpresent). cbn [negb].
  rewrite (bind_lift _ x1 _ _ Hb1), (bind_lift _ x2 _ _ Hb2), (bind_lift _ x3 _ _ Hb3).
  rewrite !bind_emit.
  rewrite (bind_lift _ [] _ _ Hpos). cbv beta iota.
  rewrite !bind_emit.
  rewrite (quiet_branch o _ _ Ho), !bind_emit.
  rewrite (quiet_branch t _ _ Ht), !bind_emit.
  reflexivity.
Qed.

Lemma bind_lift_raise {A C} (r : result A) (e : exn) (k : A -> M C) (s : state) :
  r = Raise e -> bind (lift r) k s = (Raise e, s).
Proof. now intros ->. Qed.

(** X21. What was drawn before a failure stays: when the positions cannot
    be filtered (not iterable, an amount missing or not a number), the pass
    has already shown the account heading, the three metrics and the
    positions heading, and adds the generic error below them before the
    loop ends. *)
Theorem cycle_positions_failure
    (api_key api_secret : string) (s s4 : state) (d : dict) (p o t : value)
    (x1 x2 x3 : float) (e : exn) :
  fetch_all api_key api_secret (fresh_placeholder s) = (Ok (VDict d, p, o, t), s4) ->
  balance d "totalWalletBalance" = Ok x1 ->
  balance d "totalUnrealizedProfit" = Ok x2 ->
  balance d "totalMarginBalance" = Ok x3 ->
  shown_positions p = Raise e ->
  cycle api_key api_secret s
  = (Break,
     {| st_world := st_world s4;
        session_state := session_state s;
        calls := [ Markdown "### 💼 当前账户汇总";
                   Metric "钱包余额" (float_fixed 2 x1 ++ " USDT");
                   Metric "未实现盈亏" (float_fixed 2 x2 ++ " USDT");
                   Metric "保证金余额" (float_fixed 2 x3 ++ " USDT");
                   Markdown "### 📈 当前持仓";
                   generic_error e ] |}).
Proof.
  intros Hfetch Hb1 Hb2 Hb3 Hpos.
  destruct (fetch_all_frame _ _ _ _ _ Hfetch) as [Hs Hc].
  destruct (fetch_all_ok _ _ _ _ _ _ _ _ Hfetch) as (s1 & s2 & s3 & H1 & H2 & H3 & H4).
  assert (Hpresent : py_contains (VDict d) "totalWalletBalance" = Ok true).
  { unfold balance, py_getitem in Hb1. cbn [py_contains].
    destruct (dict_get d "totalWalletBalance"); [reflexivity | discriminate]. }
  unfold cycle, try_except, cycle_body. fold (fresh_placeholder s).
  unfold bind at 1. rewrite H1. unfold bind at 1. rewrite H2.
  unfold bind at 1. rewrite H3. unfold bind at 1. rewrite H4.
  destruct s4 as [w4 pages4 shown4]. cbn [session_state calls fresh_placeholder] in Hs, Hc.
  subst pages4 shown4. cbn [st_world].
  rewrite (bind_lift _ true _ _ Hpresent). cbn [negb].
  rewrite (bind_lift _ x1 _ _ Hb1), (bind_lift _ x2 _ _ Hb2), (bind_lift _ x3 _ _ Hb3).
  rewrite !bind_emit.
  rewrite (bind_lift_raise _ e _ _ Hpos).
  reflexivity.
Qed.

Ltac peel H := apply bind_ok in H as (? & ? & _ & H).

Lemma cycle_body_ok_last (api_key api_secret : string) (s0 s' : state) (c : control) :
  cycle_body api_key api_secret s0 = (Ok c, s') ->
  match c with
  | Break => exists pre text, calls s' = (pre ++ [Error text])%list
  | Continue => exists pre, calls s' = (pre ++ [refresh_stamp (st_world s')])%list
  end.
Proof.
  unfold cycle_body. intros H.
  do 4 peel H.
  apply bind_ok in H as (present & s5 & _ & H).
  destruct present; cbn [negb] in H.
  - do 14 peel H.
    cbv [bind emit ret] in H. injection H as <- <-.
    eexists. reflexivity.
  - peel H. cbv [bind emit ret] in H. injection H as <- <-.
    eexists. eexists. reflexivity.
Qed.

Lemma cycle_ends (api_key api_secret : string) (s s' : state) (c : control) :
  cycle api_key api_secret s = (c, s') ->
  match c with
  | Break => exists pre text, calls s' = (pre ++ [Error text])%list
  | Continue => exists pre, calls s' = (pre ++ [refresh_stamp (st_world s')])%list
  end.
Proof.
  unfold cycle, try_except. fold (fresh_placeholder s).
  destruct (cycle_body api_key api_secret (fresh_placeholder s)) as [[c0|e] s1] eqn:Hbody.
  - intros [= <- <-]. now apply cycle_body_ok_last in Hbody.
  - cbv [bind emit ret]. intros [= <- <-]. eexists. eexists. reflexivity.
Qed.

(** X18. How a pass ends tells what it last showed: a pass that breaks
    out of the loop ends on an st.error call, a pass after which polling
    goes on ends on the refresh stamp; so whenever the loop stops, the last
    thing on the page is an error. *)
Theorem loop_exit_shows_error (api_key api_secret : string) (s s' : state) :
  (forall c, cycle api_key api_secret s = (c, s') ->
     match c with
     | Break => exists pre text, calls s' = (pre ++ [Error text])%list
     | Continue => exists pre, calls s' = (pre ++ [refresh_stamp (st_world s')])%list
     end)
  /\ (forall fuel refresh_interval,
        poll fuel api_key api_secret refresh_interval s = Some s' ->
        exists pre text, calls s' = (pre ++ [Error text])%list).
Proof.
  split; [intros c; apply cycle_ends|].
  intros fuel refresh_interval. revert s.
  induction fuel as [|fuel IH]; intros s; cbn [poll]; [discriminate|].
  destruct (cycle api_key api_secret s) as [[|] s1] eqn:Hc.
  - apply IH.
  - intros [= <-]. exact (cycle_ends _ _ _ _ _ Hc).
Qed.

Lemma keeps_ret {A} (a : A) : keeps_pages (ret a).
Proof. intros s r s' Hp [= _ <-]. exact Hp. Qed.

Lemma keeps_lift {A} (x : result A) : keeps_pages (lift x).
Proof. intros s r s' Hp [= _ <-]. exact Hp. Qed.

Lemma keeps_emit (c : call) : keeps_pages (emit c).
Proof. intros s r s' Hp [= _ <-]. exact Hp. Qed.

Lemma keeps_reader {A} (f : state -> A) : keeps_pages (fun s => (Ok (f s), s)).
Proof. intros s r s' Hp [= _ <-]. exact Hp. Qed.

Lemma keeps_bind {A C} (m : M A) (k : A -> M C) :
  keeps_pages m -> (forall a, keeps_pages (k a)) -> keeps_pages (bind m k).
Proof.
  intros Hm Hk s r s' Hp. unfold bind.
  destruct (m s) as [[a|e] s1] eqn:Hrun.
  - apply (Hk a). exact (Hm _ _ _ Hp Hrun).
  - intros [= _ <-]. exact (Hm _ _ _ Hp Hrun).
Qed.

Lemma keeps_signed_get (endpoint api_key secret_key : string) (extra_params : option dict) :
  keeps_pages (signed_get endpoint api_key secret_key extra_params).
Proof.
  intros s r s' Hp Hrun. apply signed_get_frame in Hrun as [Hs _]. now rewrite Hs.
Qed.

Lemma keeps_paginated (df : frame) (label : string) (page_size : Z) :
  selector_answers_in_options -> keeps_pages (paginated_table df label page_size).
Proof.
  intros Hsel s r s' Hp Hrun.
  exact (paginated_table_pages_positive df label page_size s s' r Hsel Hp Hrun).
Qed.

Lemma keeps_cycle_body (api_key api_secret : string) :
  selector_answers_in_options -> keeps_pages (cycle_body api_key api_secret).
Proof.
  intros Hsel.
  unfold cycle_body, get_account_info, get_positions, get_open_orders,
    get_position_history.
  repeat first
    [ apply keeps_ret | apply keeps_lift | apply keeps_emit
    | apply keeps_signed_get | apply keeps_reader
    | apply keeps_paginated; exact Hsel
    | apply keeps_bind; [|intros ?]
    | match goal with
      | |- keeps_pages (if ?b then _ else _) => destruct b
      | |- keeps_pages (match ?v with _ => _ end) => destruct v
      end ].
Qed.

Lemma keeps_cycle (api_key api_secret : string) (s s' : state) (c : control) :
  selector_answers_in_options ->
  pages_positive (session_state s) ->
  cycle api_key api_secret s = (c, s') ->
  pages_positive (session_state s').
Proof.
  intros Hsel Hp. unfold cycle, try_except. fold (fresh_placeholder s).
  destruct (cycle_body api_key api_secret (fresh_placeholder s)) as [[c0|e] s1] eqn:Hbody;
    apply (keeps_cycle_body api_key api_secret Hsel) in Hbody; try exact Hp.
  - intros [= _ <-]. exact Hbody.
  - cbv [bind emit ret]. intros [= _ <-]. exact Hbody.
Qed.

Lemma keeps_pass_start (api_key api_secret : string) (refresh_interval : Z) (n : nat) :
  selector_answers_in_options ->
  forall s t : state,
    pages_positive (session_state s) ->
    pass_start n api_key api_secret refresh_interval s = Some t ->
    pages_positive (session_state t).
Proof.
  intros Hsel. induction n as [|n IH]; intros s t Hp; cbn [pass_start].
  - intros [= <-]. exact Hp.
  - destruct (cycle api_key api_secret s) as [[|] s1] eqn:Hc; [|discriminate].
    apply IH. exact (keeps_cycle _ _ _ _ _ Hsel Hp Hc).
Qed.

Lemma keeps_poll (api_key api_secret : string) (refresh_interval : Z) (fuel : nat) :
  selector_answers_in_options ->
  forall s s' : state,
    pages_positive (session_state s) ->
    poll fuel api_key api_secret refresh_interval s = Some s' ->
    pages_positive (session_state s').
Proof.
  intros Hsel. induction fuel as [|fuel IH]; intros s s' Hp; cbn [poll]; [discriminate|].
  destruct (cycle api_key api_secret s) as [[|] s1] eqn:Hc;
    pose proof (keeps_cycle _ _ _ _ _ Hsel Hp Hc) as Hp1.
  - apply IH. exact Hp1.
  - intros [= <-]. exact Hp1.
Qed.

(** X19. As long as the selector gives back one of the pages it offered,
    every number kept in st.session_state stays 1 or more. It is so after
    each call of the paginator, whatever the call returns; at the start of
    every pass the loop comes to make, however many went before; at the
    end of that pass, whether it breaks out of the loop or polling goes on;
    and in the state the loop stops in. So the page a pass reads for a
    table never puts the start of the slice before the first row. *)
Theorem pages_stay_positive
    (api_key api_secret : string) (refresh_interval : Z) (s : state) :
  selector_answers_in_options ->
  pages_positive (session_state s) ->
  (forall (df : frame) (label : string) (page_size : Z) (u u' : state) (r : result unit),
     pages_positive (session_state u) ->
     paginated_table df label page_size u = (r, u') ->
     pages_positive (session_state u'))
  /\ (forall (n : nat) (t : state),
        pass_start n api_key api_secret refresh_interval s = Some t ->
        pages_positive (session_state t)
        /\ (forall (label : string) (p : Z),
              session_state t !! (label ++ "_page")%string = Some p ->
              0 <= (p - 1) * default_page_size)
        /\ (forall (c : control) (t' : state),
              cycle api_key api_secret t = (c, t') ->
              pages_positive (session_state t')))
  /\ (forall (fuel : nat) (s' : state),
        poll fuel api_key api_secret refresh_interval s = Some s' ->
        pages_positive (session_state s')).
Proof.
  intros Hsel Hp. split; [|split].
  - intros df label page_size u u' r Hu Hrun.
    exact (keeps_paginated df label page_size Hsel u r u' Hu Hrun).
  - intros n t Hstart.
    pose proof (keeps_pass_start api_key api_secret refresh_interval n Hsel s t Hp Hstart)
      as Ht.
    split; [exact Ht|]. split.
    + intros label p Hlook. apply Ht in Hlook. cbn beta in Hlook.
      unfold default_page_size. lia.
    + intros c t' Hc. exact (keeps_cycle _ _ _ _ _ Hsel Ht Hc).
  - intros fuel s'. apply keeps_poll; assumption.
Qed.

End LoopExtras.

(** ** The program run on examples *)

#[local] Existing Instance Demo.builtins.
#[local] Existing Instance Demo.runtime.

Example sha256_abc :
  hex (Sha256.sha256 (encode_utf8 "abc"))
  = "ba7816bf8f01cfea414140de5dae2223b00361a396177a9cb410ff61f20015ad".
Proof. vm_compute. reflexivity. Qed.

Example sha256_two_blocks :
  hex (Sha256.sha256
         (encode_utf8 "abcdbcdecdefdefgefghfghighijhijkijkljklmklmnlmnomnopnopq"))
  = "248d6a61d20638b8e5c026930c3e6039a33ce45964ff2167f6ecedd419db06c1".
Proof. vm_compute. reflexivity. Qed.

Example hmac_sha256_fox :
  hex (Hmac.hmac_sha256 (encode_utf8 "key")
         (encode_utf8 "The quick brown fox jumps over the lazy dog"))
  = "f7bc83f430538424b13298e6aa6fb143ef4d59a14946175997479dbc2d1a3cd8".
Proof. vm_compute. reflexivity. Qed.

Example urlencode_mixed :
  urlencode [("a b", VStr "x/y~z"); ("t", VBool true); ("q", VStr "a+b c&d=e")]
  = "a+b=x%2Fy~z&t=True&q=a%2Bb+c%26d%3De".
Proof. vm_compute. reflexivity. Qed.

Example sign_request_trades :
  sign_request [("timestamp", VInt 1700000000000); ("limit", VInt 50)] "s3cret"
  = "591c2844efa8bc523a9e203daf92525f91bce112907433ec84bc721b7bddc9dd".
Proof. vm_compute. reflexivity. Qed.

Example metrics_two_places :
  map (fun s => option_map (float_fixed 2) (float_of_str s)) ["100.5"; "-2.3"; "98.2"]
  = [Some "100.50"; Some "-2.30"; Some "98.20"].
Proof. vm_compute. reflexivity. Qed.

(** The signature of the trade-history request at a given time. *)
Lemma sign_request_spec_witness :
  String.length (sign_request [("timestamp", VInt 1700000000000); ("limit", VInt 50)] "s3cret")
  = 64%nat.
Proof.
  exact (proj1 (proj2 (sign_request_spec
                         [("timestamp", VInt 1700000000000); ("limit", VInt 50)] "s3cret"))).
Defined.

(** The specification's example: a market stop, selling, on the mark price. *)
Lemma trigger_condition_spec_witness :
  order_trigger_condition (VDict Demo.stop_order) = Ok "标记价格 <= 50000.1000".
Proof.
  destruct (trigger_condition_spec Demo.stop_order) as (op & Heq & _ & Hstop).
  destruct (Hstop (or_introl eq_refl)) as [Hsell _].
  rewrite (Hsell eq_refl) in Heq. exact Heq.
Defined.

Lemma trigger_condition_undirected_witness :
  order_trigger_condition (VDict Demo.limit_order) = Ok "最新价格 - 100.0000"
  /\ order_trigger_condition (VDict Demo.limit_order) <> Ok "-".
Proof.
  apply (trigger_condition_undirected Demo.limit_order (VStr "100")
           (1000000 : @float Demo.builtins));
    reflexivity.
Defined.


Lemma active_positions_spec_witness :
  active_positions Demo.some_positions
  = Ok [ VDict [("symbol", VStr "BTCUSDT"); ("positionAmt", VStr "0.001")];
         VDict [("symbol", VStr "SOLUSDT"); ("positionAmt", VStr "-2")] ].
Proof.
  apply (active_positions_spec Demo.some_positions).
  repeat constructor.
Defined.

(** C6, as stated, fails: an amount that does not parse is not dropped, the
    comprehension raises. *)
Lemma active_positions_unparsable :
  active_positions Demo.bad_positions = Raise ValueError
  /\ active_positions Demo.bad_positions
     <> Ok (List.filter nonzero_amount Demo.bad_positions).
Proof. split; [reflexivity | discriminate]. Qed.

Lemma signed_get_unparsable_body_witness :
  signed_get "/fapi/v2/account" "key" "secret" None (Demo.start Demo.gateway_world)
  = (Ok (VDict [("msg", VStr "无法解析响应");
                ("raw", VStr "<html>502 Bad Gateway</html>")]),
     Demo.start (Demo.at_time Demo.gateway_world 1700000000001)).
Proof.
  apply (signed_get_unparsable_body "/fapi/v2/account" "key" "secret" None
           (Demo.start Demo.gateway_world) 1700000000000
           (Demo.at_time Demo.gateway_world 1700000000001)
           (Demo.at_time Demo.gateway_world 1700000000001)
           Demo.gateway_page ValueError);
    reflexivity.
Defined.

Lemma signed_get_params_spec_witness :
  signed_get_params 1700000000000 "s3cret" (Some [("limit", VInt 50)])
  = [ ("timestamp", VInt 1700000000000); ("limit", VInt 50);
      ("signature",
       VStr "591c2844efa8bc523a9e203daf92525f91bce112907433ec84bc721b7bddc9dd") ].
Proof.
  destruct (signed_get_params_spec "/fapi/v1/userTrades" "key" "s3cret"
              (Some [("limit", VInt 50)]) (Demo.start Demo.rejecting_world)
              1700000000000 (Demo.at_time Demo.rejecting_world 1700000000001)
              eq_refl eq_refl) as [Hparams _].
  rewrite Hparams.
  change (dict_update [("timestamp", VInt 1700000000000)]
            (extra_or_empty (Some [("limit", VInt 50)])))
    with [("timestamp", VInt 1700000000000); ("limit", VInt 50)].
  rewrite sign_request_trades. reflexivity.
Defined.

(** C8, as stated, fails: when extraParams itself has a key named signature,
    that entry is part of the signed query string, and the signature takes
    its place instead of coming last. *)
Lemma signed_get_params_signature_clash :
  urlencode (dict_update [("timestamp", VInt 1)] Demo.clashing_extra)
  = "timestamp=1&signature=x&limit=50"
  /\ map fst (signed_get_params 1 "k" (Some Demo.clashing_extra))
     = ["timestamp"; "signature"; "limit"]
  /\ signed_get_params 1 "k" (Some Demo.clashing_extra)
     <> (dict_update [("timestamp", VInt 1)] Demo.clashing_extra
         ++ [("signature",
              VStr (sign_request
                      (dict_update [("timestamp", VInt 1)] Demo.clashing_extra) "k"))])%list.
Proof.
  split; [vm_compute; reflexivity|].
  assert (Hkeys : map fst (signed_get_params 1 "k" (Some Demo.clashing_extra))
                  = ["timestamp"; "signature"; "limit"])
    by (vm_compute; reflexivity).
  split; [exact Hkeys|].
  intros Heq. rewrite Heq in Hkeys. discriminate Hkeys.
Qed.

(** Twenty-five rows, ten to a page, page 3 stored: rows 20 to 24 are
    shown and the selector offers pages 1 to 3. *)
Lemma paginated_table_spec_witness :
  exists visible,
    calls (snd (paginated_table (Demo.numbered 25) "成交记录" 10
                  (Demo.on_page "成交记录" 3)))
    = [Dataframe visible;
       Selectbox "页码选择 - 成交记录" [1; 2; 3] 2 "成交记录_selector"]
    /\ (length visible <= 10)%nat
    /\ visible !! 0%nat = Some [("n", VInt 20)]
    /\ visible !! 4%nat = Some [("n", VInt 24)]
    /\ visible !! 5%nat = None.
Proof.
  assert (Hsize : 0 < 10) by reflexivity.
  assert (Hpage : 1 <= match session_state (Demo.on_page "成交记录" 3)
                             !! ("成交记录" ++ "_page")%string with
                       | Some p => p
                       | None => 1
                       end) by (vm_compute; discriminate).
  destruct (paginated_table_spec (Demo.numbered 25) "成交记录" 10
              (Demo.on_page "成交记录" 3) Hsize Hpage) as [_ Hpaged].
  destruct (Hpaged eq_refl) as (visible & Hcalls & _ & _ & Hrows & Hlen & _).
  exists visible. split; [exact Hcalls|]. split; [exact Hlen|].
  split; [exact (Hrows 0%nat)|]. split; [exact (Hrows 4%nat) | exact (Hrows 5%nat)].
Defined.

(** Eleven rows, ten to a page, but page 3 still stored: nothing is shown
    and the selector is asked for index 2 of two pages. *)
Lemma paginated_table_stale_page_witness :
  py_slice (Demo.numbered 11) 20 30 = []
  /\ calls (snd (paginated_table (Demo.numbered 11) "当前委托" 10
                   (Demo.on_page "当前委托" 3)))
     = [Dataframe []; Selectbox "页码选择 - 当前委托" [1; 2] 2 "当前委托_selector"].
Proof.
  assert (Hbig : 10 < Z.of_nat (length (Demo.numbered 11))) by reflexivity.
  assert (Hstale : Z.of_nat (length (Demo.numbered 11)) <= (3 - 1) * 10)
    by (vm_compute; discriminate).
  destruct (paginated_table_stale_page (Demo.numbered 11) "当前委托" 10 3
              (Demo.on_page "当前委托" 3) Hbig eq_refl Hstale)
    as (Hempty & Hcalls & _).
  split; [exact Hempty | exact Hcalls].
Defined.

(** C10, as stated, fails in a world whose selector checks its index as
    Streamlit does: the empty slice is shown, then the paginator raises. *)
Lemma paginated_table_stale_page_raises :
  fst (paginated_table (Demo.numbered 11) "当前委托" 10 (Demo.on_page "当前委托" 3))
  = Raise (LibraryError "Selectbox index must be between 0 and length of options")
  /\ fst (paginated_table (Demo.numbered 11) "当前委托" 10 (Demo.on_page "当前委托" 3))
     <> Ok tt.
Proof. split; [vm_compute; reflexivity | vm_compute; discriminate]. Qed.

(** A rejected API key: the server's message is shown and the loop ends. *)
Lemma cycle_missing_balance_witness :
  cycle "key" "secret" (Demo.start Demo.rejecting_world)
  = (Break,
     @Build_state Demo.builtins Demo.runtime
       (Demo.at_time Demo.rejecting_world 1700000000004) ∅
       [Error "账户信息错误: Invalid API-key, IP, or permissions for action."]).
Proof.
  refine (proj1 (cycle_missing_balance "key" "secret"
                   (Demo.start Demo.rejecting_world)
                   (Demo.start (Demo.at_time Demo.rejecting_world 1700000000001))
                   (Demo.start (Demo.at_time Demo.rejecting_world 1700000000002))
                   (Demo.start (Demo.at_time Demo.rejecting_world 1700000000003))
                   (Demo.start (Demo.at_time Demo.rejecting_world 1700000000004))
                   Demo.rejected_key (VList []) (VList []) (VList [])
                   _ _ _ _ _));
    reflexivity.
Defined.

(** C5, as stated, fails: the account summary is an object without the
    balance, carrying the server's message, but the request for the
    positions, made before the check, does not come back. The pass shows
    the generic error of the handler, not the server's message. *)
Lemma cycle_missing_balance_later_request :
  get_account_info "key" "secret" (Demo.start Demo.cut_off_world)
  = (Ok (VDict Demo.rejected_key),
     Demo.start (Demo.at_time Demo.cut_off_world 1700000000001))
  /\ dict_get Demo.rejected_key "totalWalletBalance" = None
  /\ cycle "key" "secret" (Demo.start Demo.cut_off_world)
     = (Break,
        @Build_state Demo.builtins Demo.runtime
          (Demo.at_time Demo.cut_off_world 1700000000002) ∅
          [Error "发生错误：ConnectionError"])
  /\ calls (snd (cycle "key" "secret" (Demo.start Demo.cut_off_world)))
     <> [Error ("账户信息错误: " ++ py_str (server_message Demo.rejected_key))%string].
Proof.
  split; [reflexivity|]. split; [reflexivity|].
  assert (Hcycle : cycle "key" "secret" (Demo.start Demo.cut_off_world)
                   = (Break,
                      @Build_state Demo.builtins Demo.runtime
                        (Demo.at_time Demo.cut_off_world 1700000000002) ∅
                        [Error "发生错误：ConnectionError"]))
    by reflexivity.
  split; [exact Hcycle|].
  rewrite Hcycle. cbn [snd calls]. discriminate.
Qed.

(** *** Further examples *)

Lemma demo_selector_in_options :
  @selector_answers_in_options Demo.builtins Demo.runtime.
Proof.
  intros title options index key w v w'.
  change (Demo.demo_selectbox title options index key w = (Ok v, w') -> In v options).
  unfold Demo.demo_selectbox.
  destruct ((0 <=? index) && (index <? Z.of_nat (length options))) eqn:Hrange;
    [|discriminate].
  apply andb_true_iff in Hrange as [Hlo Hhi].
  apply Z.leb_le in Hlo. apply Z.ltb_lt in Hhi.
  destruct (existsb (Z.eqb (Demo.next_pick w)) options) eqn:Hpick; intros [= <- _].
  - apply existsb_exists in Hpick as (x & Hin & Hx).
    apply Z.eqb_eq in Hx. now rewrite Hx.
  - apply nth_In. lia.
Qed.

(** The gateway answers the account request only: the next one fails to
    connect, and the exception comes out of the call. *)
Lemma signed_get_transport_error_witness :
  get_positions "key" "secret" (Demo.start Demo.gateway_world)
  = (Raise (LibraryError "ConnectionError"),
     Demo.start (Demo.at_time Demo.gateway_world 1700000000001)).
Proof.
  apply (signed_get_transport_error "/fapi/v2/positionRisk" "key" "secret" None
           (Demo.start Demo.gateway_world) 1700000000000
           (Demo.at_time Demo.gateway_world 1700000000001)
           (Demo.at_time Demo.gateway_world 1700000000001)
           (LibraryError "ConnectionError"));
    reflexivity.
Defined.

Lemma plain_requests_url_witness :
  get_account_info "key" "secret" (Demo.start Demo.rejecting_world)
  = (Ok (VDict Demo.rejected_key),
     Demo.start (Demo.at_time Demo.rejecting_world 1700000000001)).
Proof.
  rewrite (proj1 (plain_requests_url "key" "secret" (Demo.start Demo.rejecting_world)
                    1700000000000 (Demo.at_time Demo.rejecting_world 1700000000001)
                    eq_refl)).
  reflexivity.
Defined.

Lemma trade_history_url_witness :
  get_position_history "key" "secret" (Demo.start Demo.rejecting_world)
  = (Ok (VList []), Demo.start (Demo.at_time Demo.rejecting_world 1700000000001)).
Proof.
  rewrite (trade_history_url "key" "secret" (Demo.start Demo.rejecting_world)
             1700000000000 (Demo.at_time Demo.rejecting_world 1700000000001) eq_refl).
  reflexivity.
Defined.

Lemma paginated_table_zero_page_size_witness :
  paginated_table (Demo.numbered 3) "当前持仓" 0 (Demo.on_page "当前持仓" 1)
  = (Raise ZeroDivisionError, Demo.on_page "当前持仓" 1).
Proof.
  apply (paginated_table_zero_page_size (Demo.numbered 3) "当前持仓"
           (Demo.on_page "当前持仓" 1)).
  discriminate.
Defined.

Lemma pages_partition_witness :
  concat (map (visible_rows (Demo.numbered 25) 10) [1; 2; 3]) = Demo.numbered 25.
Proof.
  exact (proj1 (pages_partition (Demo.numbered 25) "成交记录" 10 eq_refl)).
Defined.

Lemma offered_pages_filled_witness :
  Z.of_nat (length (visible_rows (Demo.numbered 25) 10 3)) = 5.
Proof.
  assert (Hp : 1 <= 3 <= ceil_div (Z.of_nat (length (Demo.numbered 25))) 10)
    by (split; vm_compute; discriminate).
  destruct (offered_pages_filled (Demo.numbered 25) 10 3 eq_refl Hp) as (_ & _ & Hlast).
  exact (Hlast eq_refl).
Defined.

(** On page 1 of three, the user picks page 2: it is stored under the page
    key and under the selector's key, and shown the next time round. *)
Lemma selection_is_kept_witness :
  let s' := snd (paginated_table (Demo.numbered 25) "成交记录" 10
                   (Demo.browsing "成交记录" 1 2)) in
  session_state s' !! "成交记录_page" = Some 2
  /\ session_state s' !! "成交记录_selector" = Some 2
  /\ calls (snd (paginated_table (Demo.numbered 25) "成交记录" 10 s')) !! length (calls s')
     = Some (Dataframe (visible_rows (Demo.numbered 25) 10 2)).
Proof.
  destruct (selection_is_kept (Demo.numbered 25) (Demo.numbered 25) "成交记录" 10 2
              (Demo.browsing "成交记录" 1 2)
              (st_world (Demo.browsing "成交记录" 1 2))
              eq_refl eq_refl ltac:(discriminate) eq_refl)
    as (Hpage & Hselector & _ & Hnext).
  split; [exact Hpage|]. split; [exact Hselector | exact Hnext].
Defined.

Lemma active_positions_first_failure_witness :
  active_positions (Demo.some_positions ++ Demo.bad_positions)%list = Raise ValueError.
Proof.
  apply (active_positions_first_failure Demo.some_positions []
           (VDict [("symbol", VStr "BTCUSDT"); ("positionAmt", VStr "abc")]) ValueError).
  - repeat constructor.
  - reflexivity.
Defined.

(** The gateway again: the account request gets the fallback object, the
    position request fails, and the pass reports the failure. *)
Lemma cycle_fetch_failure_witness :
  cycle "key" "secret" (Demo.start Demo.gateway_world)
  = (Break,
     @Build_state Demo.builtins Demo.runtime
       (Demo.at_time Demo.gateway_world 1700000000002) ∅
       [Error "发生错误：ConnectionError"]).
Proof.
  refine (proj1 (cycle_fetch_failure "key" "secret" (Demo.start Demo.gateway_world)
                   (Demo.start (Demo.at_time Demo.gateway_world 1700000000002))
                   (LibraryError "ConnectionError") _)).
  reflexivity.
Defined.

Lemma cycle_account_not_object_witness :
  exists e,
    cycle "key" "secret" (Demo.start Demo.listing_world)
    = (Break,
       @Build_state Demo.builtins Demo.runtime
         (Demo.at_time Demo.listing_world 1700000000004) ∅ [generic_error e]).
Proof.
  destruct (cycle_account_not_object "key" "secret" (Demo.start Demo.listing_world)
              (Demo.start (Demo.at_time Demo.listing_world 1700000000004))
              (VList []) (VList []) (VList []) (VList []) eq_refl
              ltac:(discriminate)) as (e & _ & Hcycle).
  exists e. exact Hcycle.
Defined.

(** The account of the specification's end-to-end example. *)
Lemma cycle_quiet_witness :
  cycle "key" "secret" (Demo.start Demo.quiet_world)
  = (Continue,
     @Build_state Demo.builtins Demo.runtime
       (Demo.at_time Demo.quiet_world 1700000000004) ∅
       [ Markdown "### 💼 当前账户汇总";
         Metric "钱包余额" "100.50 USDT";
         Metric "未实现盈亏" "-2.30 USDT";
         Metric "保证金余额" "98.20 USDT";
         Markdown "### 📈 当前持仓";
         Info "无当前持仓";
         Markdown "### 📋 当前委托订单（含中文触发条件）";
         Info "无当前委托";
         Markdown "### 🕒 最近成交记录（仓位历史）";
         Info "无成交记录";
         Markdown "⏱ 最后刷新：t=1700000000004" ]).
Proof.
  apply (cycle_quiet "key" "secret" (Demo.start Demo.quiet_world)
           (Demo.start (Demo.at_time Demo.quiet_world 1700000000004))
           Demo.quiet_account (VList []) (VList []) (VList [])
           (1005000 : @float Demo.builtins) (-23000 : @float Demo.builtins)
           (982000 : @float Demo.builtins));
    reflexivity.
Defined.

(** One position with an amount that is not a number. *)
Lemma cycle_positions_failure_witness :
  cycle "key" "secret" (Demo.start Demo.broken_world)
  = (Break,
     @Build_state Demo.builtins Demo.runtime
       (Demo.at_time Demo.broken_world 1700000000004) ∅
       [ Markdown "### 💼 当前账户汇总";
         Metric "钱包余额" "100.50 USDT";
         Metric "未实现盈亏" "-2.30 USDT";
         Metric "保证金余额" "98.20 USDT";
         Markdown "### 📈 当前持仓";
         Error "发生错误：could not convert string to float" ]).
Proof.
  apply (cycle_positions_failure "key" "secret" (Demo.start Demo.broken_world)
           (Demo.start (Demo.at_time Demo.broken_world 1700000000004))
           Demo.quiet_account (VList Demo.bad_positions) (VList []) (VList [])
           (1005000 : @float Demo.builtins) (-23000 : @float Demo.builtins)
           (982000 : @float Demo.builtins) ValueError);
    reflexivity.
Defined.

(** Page 3 of the 25 trades is stored and the user picks page 2: the first
    pass shows the last five trades and the selector and goes through; the
    second pass starts with page 2 stored. *)
Lemma pages_stay_positive_witness :
  let shown :=
    [ Markdown "### 💼 当前账户汇总";
      Metric "钱包余额" "100.50 USDT";
      Metric "未实现盈亏" "-2.30 USDT";
      Metric "保证金余额" "98.20 USDT";
      Markdown "### 📈 当前持仓";
      Info "无当前持仓";
      Markdown "### 📋 当前委托订单（含中文触发条件）";
      Info "无当前委托";
      Markdown "### 🕒 最近成交记录（仓位历史）";
      Dataframe (map (Demo.project [("symbol", "交易对"); ("side", "方向"); ("qty", "数量");
                                    ("price", "价格"); ("realizedPnl", "已实现盈亏");
                                    ("time", "时间")])
                     (drop 20 (Demo.trades 25)));
      Selectbox "页码选择 - 成交记录" [1; 2; 3] 2 "成交记录_selector";
      Markdown "⏱ 最后刷新：t=1700000000004" ] in
  let second :=
    @Build_state Demo.builtins Demo.runtime
      (Demo.at_time Demo.busy_world 1700000030004)
      (<["成交记录_page" := 2]> (<["成交记录_selector" := 2]> {[ "成交记录_page" := 3 ]}))
      shown in
  pass_start 1 "key" "secret" 30 (Demo.busy_on_page 3) = Some second
  /\ pages_positive (session_state second)
  /\ pages_positive (session_state (snd (cycle "key" "secret" second))).
Proof.
  intros shown second.
  assert (Hstart : pass_start 1 "key" "secret" 30 (Demo.busy_on_page 3) = Some second)
    by reflexivity.
  assert (Hp : pages_positive (session_state (Demo.busy_on_page 3)))
    by (apply map_Forall_singleton; discriminate).
  destruct (pages_stay_positive "key" "secret" 30 (Demo.busy_on_page 3)
              demo_selector_in_options Hp) as (_ & Hpass & _).
  destruct (Hpass 1%nat second Hstart) as (Hsecond & _ & Hend).
  split; [exact Hstart|]. split; [exact Hsecond|].
  exact (Hend _ _ (surjective_pairing _)).
Defined.
